(** * sample-rng-plot.py: a trace model of the example script

    The script src/core/examples/sample-rng-plot.py owns no algorithm: it
    imports its libraries, parses one flag, configures an ns-3 normal random
    variable, draws 10000 values and hands them to matplotlib.  What can be
    verified about it is the sequence of calls it makes into those libraries,
    the arguments of each call, and how the process ends.

    The libraries are opaque.  They are represented by an oracle that answers
    every call, knowing all that happened before, either with a value or with
    an exception.  A run is the chronological list of these calls and of the
    texts written to the standard streams, with the way the interpreter
    leaves the process. *)

From Stdlib Require Import ZArith List String Ascii Bool Lia PrimFloat.
Import ListNotations.

Set Warnings "-inexact-float,-register-all".

Local Open Scope string_scope.
Local Open Scope list_scope.
Local Open Scope Z_scope.

(** ** Python values and exceptions *)

(** The objects that cross the boundary between the script and its
    libraries.  Objects of a library that the script only passes around (a
    module, the random variable, a wrapped attribute value) are opaque
    handles, which the model takes as objects that cannot be iterated.  A
    string is the list of its characters, each of a code point below 256. *)
Inductive value : Type :=
| VNone
| VBool (b : bool)
| VInt (n : Z)
| VFloat (x : float)
| VStr (s : string)
| VTuple (items : list value)
| VList (items : list value)
| VObject (id : Z).

(** An exception instance: the method resolution order of its class, the
    class first, and its first argument (the message of an error, the code of
    a [SystemExit]). *)
Record exn : Type := mkExn { exc_mro : list string; exc_arg : value }.

Definition isinstance (e : exn) (cls : string) : bool :=
  existsb (String.eqb cls) (exc_mro e).

(** [SystemExit(arg)] as the script and argparse raise it. *)
Definition SystemExit (arg : value) : exn :=
  mkExn ["SystemExit"; "BaseException"; "object"] arg.

Definition TypeError (msg : string) : exn :=
  mkExn ["TypeError"; "Exception"; "BaseException"; "object"] (VStr msg).

Definition ValueError (msg : string) : exn :=
  mkExn ["ValueError"; "Exception"; "BaseException"; "object"] (VStr msg).

Definition ModuleNotFoundError (msg : string) : exn :=
  mkExn ["ModuleNotFoundError"; "ImportError"; "Exception"; "BaseException";
         "object"] (VStr msg).

Definition ImportError (msg : string) : exn :=
  mkExn ["ImportError"; "Exception"; "BaseException"; "object"] (VStr msg).

(** ** Calls into the libraries *)

(** One constructor per call expression of the script, with the arguments
    the script passes.  The attribute look-ups that select the callee
    ([plt.hist], [rng.GetValue], [ns.CreateObject[ns.NormalRandomVariable]])
    belong to the call. *)
Inductive call : Type :=
| import_ (module : string)
| from_import (module name : string)
| ns_CreateObject (type : string)
| ns_DoubleValue (x : float)
| rng_SetAttribute (rng : value) (name : string) (v : value)
| rng_GetValue (rng : value)
| plt_hist (x : list value) (bins : Z) (density : bool) (facecolor : string)
           (alpha : float)
| plt_title (label : string)
| plt_text (x : Z) (y : float) (s : string)
| plt_axis (limits : list value)
| plt_grid (visible : bool)
| plt_show (block : bool).

Inductive outcome : Type :=
| Returned (v : value)
| Raised (e : exn).

(** ** What argparse writes *)

(** The two ways in which argparse rejects an argument list of this parser:
    [ArgumentParser.error] is called with one of these messages. *)
Inductive argparse_error : Type :=
| unrecognized_arguments (extras : list string)
| ignored_explicit_argument (option_string explicit_arg : string)
| ambiguous_option (arg_string : string) (matches : list string).

Inductive stream : Type := stdout | stderr.

(** Texts written to the standard streams.  The usage and help texts are
    kept as tokens, the message of an argparse error by its structure, an
    object printed with [str] by the object. *)
Inductive text : Type :=
| usage (prog : string)
| help (prog : string)
| error_message (prog : string) (err : argparse_error)
| str (v : value)
| traceback (e : exn).

Inductive event : Type :=
| Ext (c : call) (o : outcome)
| Write (f : stream) (t : text).

(** The libraries: the answer to a call, given the events so far, the most
    recent first. *)
Definition oracle : Type := list event -> call -> outcome.

(** ** The monad of the script *)

(** A computation reads the events that precede it (most recent first) and
    gives the events it adds, in chronological order, with its value or the
    exception that ended it. *)
Definition M (A : Type) : Type :=
  oracle -> list event -> list event * (A + exn).

Definition ret {A : Type} (a : A) : M A := fun _ _ => ([], inl a).

Definition raise {A : Type} (e : exn) : M A := fun _ _ => ([], inr e).

Definition bind {A B : Type} (m : M A) (k : A -> M B) : M B :=
  fun w past =>
    let (t1, r) := m w past in
    match r with
    | inl a => let (t2, r2) := k a w (rev_append t1 past) in (t1 ++ t2, r2)
    | inr e => (t1, inr e)
    end.

Notation "x <- c1 ;; c2" := (bind c1 (fun x => c2))
  (at level 61, c1 at next level, right associativity).
Notation "c1 ;; c2" := (bind c1 (fun _ => c2))
  (at level 61, right associativity).

(** A call into a library. *)
Definition ext (c : call) : M value :=
  fun w past =>
    match w past c with
    | Returned v => ([Ext c (Returned v)], inl v)
    | Raised e => ([Ext c (Raised e)], inr e)
    end.

Definition write (f : stream) (t : text) : M unit :=
  fun _ _ => ([Write f t], inl tt).

(** [try: m  except cls: h]; the handler does not use the exception. *)
Definition try_except {A : Type} (m : M A) (cls : string) (h : M A) : M A :=
  fun w past =>
    let (t1, r) := m w past in
    match r with
    | inl a => (t1, inl a)
    | inr e =>
        if isinstance e cls
        then let (t2, r2) := h w (rev_append t1 past) in (t1 ++ t2, r2)
        else (t1, inr e)
    end.

(** [[f(t) for t in l]]. *)
Fixpoint list_comp {A B : Type} (f : A -> M B) (l : list A) : M (list B) :=
  match l with
  | [] => ret []
  | a :: l' => b <- f a ;; bs <- list_comp f l' ;; ret (b :: bs)
  end.

(** [range(n)]. *)
Definition range (n : Z) : list Z := map Z.of_nat (seq 0 (Z.to_nat n)).

(** [a, b, c = v]: tuples, lists and strings (of one-byte characters) are
    the iterables of the model. *)
Definition items_of (v : value) : option (list value) :=
  match v with
  | VTuple l | VList l => Some l
  | VStr s =>
      Some (map (fun c => VStr (String c EmptyString)) (list_ascii_of_string s))
  | _ => None
  end.

(** [type(v).__name__]; an opaque handle counts as a plain [object]. *)
Definition type_name (v : value) : string :=
  match v with
  | VNone => "NoneType"
  | VBool _ => "bool"
  | VInt _ => "int"
  | VFloat _ => "float"
  | VStr _ => "str"
  | VTuple _ => "tuple"
  | VList _ => "list"
  | VObject _ => "object"
  end.

(** The unpacking of three names, with the errors of CPython 3.11. *)
Definition unpack (v : value) : value * value * value + exn :=
  match items_of v with
  | None =>
      inr (TypeError ("cannot unpack non-iterable " ++ type_name v
                      ++ " object")%string)
  | Some [a; b; c] => inl (a, b, c)
  | Some (_ :: _ :: _ :: _ :: _) =>
      inr (ValueError "too many values to unpack (expected 3)")
  | Some [] => inr (ValueError "not enough values to unpack (expected 3, got 0)")
  | Some [_] => inr (ValueError "not enough values to unpack (expected 3, got 1)")
  | Some [_; _] =>
      inr (ValueError "not enough values to unpack (expected 3, got 2)")
  end.

Definition unpack3 (v : value) : M (value * value * value) :=
  fun _ _ => ([], unpack v).

(** ** The parser of the script, after the argparse of CPython 3.11

    [argparse.ArgumentParser("sample-rng-plot")] followed by
    [add_argument("--not-blocking", action="store_true", default=False)]
    registers three option strings, in this order: [-h] and [--help] for the
    help action that every parser gets, and [--not-blocking].  Both actions
    take no argument ([nargs=0]); the parser has no positional argument, and
    abbreviations of long options are allowed, as by default.  The functions
    below follow [ArgumentParser._parse_optional], [_get_option_tuples],
    [_parse_known_args] and [parse_args] for that parser. *)

Inductive action : Type :=
| help_action
| store_true_not_blocking.

Record Namespace : Type := mkNamespace { not_blocking : bool }.

Definition prog : string := "sample-rng-plot".

Definition _option_string_actions : list (string * action) :=
  [("-h", help_action); ("--help", help_action);
   ("--not-blocking", store_true_not_blocking)].

Definition lookup_option (s : string) : option action :=
  match find (fun p => String.eqb (fst p) s) _option_string_actions with
  | Some p => Some (snd p)
  | None => None
  end.

(** [s.startswith(p)]. *)
Definition startswith (s p : string) : bool := String.prefix p s.

(** [s.split('=', 1)] when ['=' in s]. *)
Fixpoint split_eq (s : string) : option (string * string) :=
  match s with
  | EmptyString => None
  | String c s' =>
      if Ascii.eqb c "="%char then Some (EmptyString, s')
      else match split_eq s' with
           | Some (l, r) => Some (String c l, r)
           | None => None
           end
  end.

(** [s[1]] is the prefix character. *)
Definition second_is_dash (s : string) : bool :=
  match s with
  | String _ (String c _) => Ascii.eqb c "-"%char
  | _ => false
  end.

(** An option tuple: the action, its option string, the explicit argument. *)
Definition option_tuple : Type := (action * string * option string)%type.

(** [_get_option_tuples], for a string of at least two characters that
    starts with [-]. *)
Definition _get_option_tuples (option_string : string) : list option_tuple :=
  if second_is_dash option_string then
    let (option_prefix, explicit_arg) :=
      match split_eq option_string with
      | Some (l, r) => (l, Some r)
      | None => (option_string, None)
      end in
    flat_map (fun p : string * action =>
                if startswith (fst p) option_prefix
                then [(snd p, fst p, explicit_arg)] else [])
             _option_string_actions
  else
    let short_option_prefix := substring 0 2 option_string in
    let short_explicit_arg :=
      substring 2 (String.length option_string - 2) option_string in
    flat_map (fun p : string * action =>
                if String.eqb (fst p) short_option_prefix
                then [(snd p, fst p, Some short_explicit_arg)]
                else if startswith (fst p) option_string
                then [(snd p, fst p, None)] else [])
             _option_string_actions.

(** What [_parse_optional] makes of one argument string.  Where argparse
    tells a positional ([None]) from an option of no action
    ([(None, arg_string, None)]), the model has the one case [no_action]:
    this parser has no positional argument, and either kind of string is
    appended to the extras at its place. *)
Inductive parsed_optional : Type :=
| no_action
| optional (t : option_tuple)
| ambiguous (matches : list string).

Definition _parse_optional (arg_string : string) : parsed_optional :=
  match arg_string with
  | EmptyString => no_action
  | String c _ =>
      if negb (Ascii.eqb c "-"%char) then no_action
      else
        match lookup_option arg_string with
        | Some a => optional (a, arg_string, None)
        | None =>
            if (String.length arg_string =? 1)%nat then no_action
            else
              let by_eq :=
                match split_eq arg_string with
                | Some (option_string, explicit_arg) =>
                    match lookup_option option_string with
                    | Some a => Some (a, option_string, Some explicit_arg)
                    | None => None
                    end
                | None => None
                end in
              match by_eq with
              | Some t => optional t
              | None =>
                  match _get_option_tuples arg_string with
                  | [] => no_action
                  | [t] => optional t
                  | ts => ambiguous (map (fun t : option_tuple => snd (fst t)) ts)
                  end
              end
        end
  end.

(** The first pass of [_parse_known_args]: every string before a [--] goes
    through [_parse_optional]; [--] and what follows it are arguments.  An
    ambiguous string ends the parse at once. *)
Fixpoint classify (arg_strings : list string)
  : list (string * parsed_optional) + argparse_error :=
  match arg_strings with
  | [] => inl []
  | s :: rest =>
      if String.eqb s "--"
      then inl (map (fun a => (a, no_action)) arg_strings)
      else
        match _parse_optional s with
        | ambiguous ms => inr (ambiguous_option s ms)
        | p =>
            match classify rest with
            | inl l => inl ((s, p) :: l)
            | inr e => inr e
            end
        end
  end.

Inductive explicit_error : Type :=
| ignored (a : action) (explicit_arg : string).

(** The loop of [consume_optional] for an option with an explicit argument:
    after a single-dash option that takes no argument the rest of the string
    is read as further single-dash options.  The result is the list of the
    actions to take, or the [ArgumentError]. *)
Fixpoint consume_explicit (a : action) (option_string explicit_arg : string)
  {struct explicit_arg} : list action + explicit_error :=
  match explicit_arg with
  | EmptyString => inr (ignored a explicit_arg)
  | String c rest =>
      if second_is_dash option_string then inr (ignored a explicit_arg)
      else
        let option_string' := String "-"%char (String c EmptyString) in
        match lookup_option option_string' with
        | None => inr (ignored a explicit_arg)
        | Some a' =>
            match rest with
            | EmptyString => inl [a; a']
            | _ =>
                match consume_explicit a' option_string' rest with
                | inl l => inl (a :: l)
                | inr e => inr e
                end
            end
        end
  end.

Definition consume_optional (t : option_tuple) : list action + explicit_error :=
  match t with
  | (a, _, None) => inl [a]
  | (a, option_string, Some explicit_arg) =>
      consume_explicit a option_string explicit_arg
  end.

(** How [_parse_known_args] ends: with the namespace and the extras, in the
    help action (which prints and exits), or in an error. *)
Inductive known_args : Type :=
| parsed (namespace : Namespace) (extras : list string)
| help_requested
| failed (err : argparse_error).

(** [take_action] over the actions of one option string. *)
Fixpoint take_actions (acts : list action) (namespace : Namespace)
  : option Namespace :=
  match acts with
  | [] => Some namespace
  | help_action :: _ => None
  | store_true_not_blocking :: rest => take_actions rest (mkNamespace true)
  end.

Definition argument_name (a : action) : string :=
  match a with
  | help_action => "-h/--help"
  | store_true_not_blocking => "--not-blocking"
  end.

(** The second pass: the strings are consumed from left to right. *)
Fixpoint consume (l : list (string * parsed_optional)) (namespace : Namespace)
  (extras : list string) : known_args :=
  match l with
  | [] => parsed namespace extras
  | (s, optional t) :: rest =>
      match consume_optional t with
      | inr (ignored a explicit_arg) =>
          failed (ignored_explicit_argument (argument_name a) explicit_arg)
      | inl acts =>
          match take_actions acts namespace with
          | None => help_requested
          | Some namespace' => consume rest namespace' extras
          end
      end
  | (s, _) :: rest => consume rest namespace (extras ++ [s])
  end.

Definition _parse_known_args (arg_strings : list string) : known_args :=
  match classify arg_strings with
  | inr e => failed e
  | inl l => consume l (mkNamespace false) []
  end.

(** [ArgumentParser.error]: the usage and the message on the standard
    error stream, then [sys.exit(2)]. *)
Definition error {A : Type} (err : argparse_error) : M A :=
  write stderr (usage prog) ;;
  write stderr (error_message prog err) ;;
  raise (SystemExit (VInt 2)).

(** [ArgumentParser.parse_args]. *)
Definition parse_args (args : list string) : M Namespace :=
  match _parse_known_args args with
  | failed e => error e
  | help_requested =>
      write stdout (help prog) ;; raise (SystemExit (VInt 0))
  | parsed namespace [] => ret namespace
  | parsed _ argv => error (unrecognized_arguments argv)
  end.

(** ** The script *)

(** The argument of the [SystemExit] of the import guard: three adjacent
    string literals. *)
Definition diagnostic : string :=
  "Error: ns3 Python module not found;"
  ++ " Python bindings may not be enabled"
  ++ " or your PYTHONPATH might not be properly configured".

(** [main()], with [sys.argv] as it stands when [main] runs. *)
Definition main (sys_argv : list string) : M unit :=
  args <- parse_args (skipn 1 sys_argv) ;;
  rng <- ext (ns_CreateObject "NormalRandomVariable") ;;
  mean <- ext (ns_DoubleValue 100.0) ;;
  ext (rng_SetAttribute rng "Mean" mean) ;;
  variance <- ext (ns_DoubleValue 225.0) ;;
  ext (rng_SetAttribute rng "Variance" variance) ;;
  x <- list_comp (fun _ => ext (rng_GetValue rng)) (range 10000) ;;
  h <- ext (plt_hist x 50 true "g" 0.75) ;;
  unpack3 h ;;
  ext (plt_title "ns-3 histogram") ;;
  ext (plt_text 60 0.025 "$\mu=100,\ \sigma=15$") ;;
  ext (plt_axis [VInt 40; VInt 160; VInt 0; VFloat 0.03]) ;;
  ext (plt_grid true) ;;
  ext (plt_show (negb (not_blocking args))) ;;
  ret tt.

(** The module: the imports, the guarded import of ns-3, the definition of
    [main], and the call of [main] when the module runs as [__main__]. *)
Definition script (sys_argv : list string) (__name__ : string) : M unit :=
  ext (import_ "argparse") ;;
  ext (import_ "sys") ;;
  ext (import_ "matplotlib.pyplot") ;;
  ext (import_ "numpy") ;;
  try_except (ext (from_import "ns" "ns")) "ModuleNotFoundError"
             (raise (SystemExit (VStr diagnostic))) ;;
  if String.eqb __name__ "__main__" then main sys_argv else ret tt.

(** ** The interpreter around the script *)

(** How CPython leaves the process.  A [SystemExit] with no code ends it
    with status 0, with an integer code with the low eight bits of the code
    (255 when the code does not fit the 64 bits of a C long), with any other
    object by printing the object on the standard error stream, status 1.  Any other exception is printed as a traceback, status
    1 (130 as a shell reports it for [KeyboardInterrupt], which ends the
    process by SIGINT). *)
Definition exit_status (r : unit + exn) : Z :=
  match r with
  | inl _ => 0
  | inr e =>
      if isinstance e "SystemExit" then
        match exc_arg e with
        | VNone => 0
        | VInt n =>
            if (- 2 ^ 63 <=? n) && (n <? 2 ^ 63) then n mod 256 else 255
        | VBool b => if b then 1 else 0
        | _ => 1
        end
      else if isinstance e "KeyboardInterrupt" then 130 else 1
  end.

Definition last_words (r : unit + exn) : list event :=
  match r with
  | inl _ => []
  | inr e =>
      if isinstance e "SystemExit" then
        match exc_arg e with
        | VNone | VInt _ | VBool _ => []
        | v => [Write stderr (str v)]
        end
      else [Write stderr (traceback e)]
  end.

(** A run of the script: what happened, how the module ended, and the exit
    status of the process. *)
Record run : Type :=
  mkRun { trace : list event; result : unit + exn; status : Z }.

Definition python (w : oracle) (sys_argv : list string) (__name__ : string)
  : run :=
  let (t, r) := script sys_argv __name__ w [] in
  mkRun (t ++ last_words r) r (exit_status r).

(** ** Notions used in the statements *)

(** An argument that selects the [--not-blocking] option: the option string
    itself or one of the abbreviations that argparse accepts for it, the
    prefixes from [--n] on. *)
Definition is_not_blocking_flag (s : string) : bool :=
  (3 <=? String.length s)%nat && startswith "--not-blocking" s.

(** The prefixes of a string, the shortest first. *)
Fixpoint prefixes (t : string) : list string :=
  EmptyString ::
  match t with
  | EmptyString => []
  | String c t' => map (String c) (prefixes t')
  end.

(** What one argument string does when it is consumed as an option. *)
Inductive effect : Type :=
| sets_flag
| prints_help
| rejected (e : explicit_error)
| is_extra
| is_ambiguous (matches : list string).

Definition has_help (acts : list action) : bool :=
  existsb (fun a => match a with help_action => true | _ => false end) acts.

Definition effect_of (s : string) : effect :=
  match _parse_optional s with
  | no_action => is_extra
  | ambiguous ms => is_ambiguous ms
  | optional t =>
      match consume_optional t with
      | inr e => rejected e
      | inl acts => if has_help acts then prints_help else sets_flag
      end
  end.

(** [needle in hay]. *)
Fixpoint contains (needle hay : string) : bool :=
  String.prefix needle hay ||
  match hay with
  | EmptyString => false
  | String _ hay' => contains needle hay'
  end.

Definition ok (c : call) (v : value) : event := Ext c (Returned v).
Definition ko (c : call) (e : exn) : event := Ext c (Raised e).

(** Recognisers of calls. *)
Definition is_import (c : call) : bool :=
  match c with import_ _ | from_import _ _ => true | _ => false end.
Definition is_setup (c : call) : bool :=
  match c with
  | ns_CreateObject _ | ns_DoubleValue _ | rng_SetAttribute _ _ _ => true
  | _ => false
  end.
Definition is_GetValue (c : call) : bool :=
  match c with rng_GetValue _ => true | _ => false end.
Definition is_hist (c : call) : bool :=
  match c with plt_hist _ _ _ _ _ => true | _ => false end.
Definition is_figure (c : call) : bool :=
  match c with
  | plt_title _ | plt_text _ _ _ | plt_axis _ | plt_grid _ => true
  | _ => false
  end.
Definition is_show (c : call) : bool :=
  match c with plt_show _ => true | _ => false end.
Definition is_show_with (block : bool) (c : call) : bool :=
  match c with plt_show b => Bool.eqb b block | _ => false end.

(** An event is a call of a kind. *)
Definition is_call (p : call -> bool) (ev : event) : bool :=
  match ev with Ext c _ => p c | Write _ _ => false end.

(** The events of a trace that are calls of a kind. *)
Definition calls (p : call -> bool) (t : list event) : list event :=
  filter (is_call p) t.

(** A run reaches a step when its trace has a call of that kind. *)
Definition reaches (p : call -> bool) (r : run) : bool :=
  existsb (is_call p) (trace r).

(** No call of a kind raised. *)
Definition none_raised (p : call -> bool) (r : run) : bool :=
  forallb (fun ev => match ev with
                     | Ext c (Raised _) => negb (p c)
                     | _ => true
                     end) (trace r).

(** Three items, as [plt.hist] returns them and as the script unpacks
    them. *)
Definition is_triple (v : value) : bool :=
  match items_of v with Some [_; _; _] => true | _ => false end.

(** A call returns normally: it returns, and [plt.hist] returns its three
    items. *)
Definition returns_normally (ev : event) : bool :=
  match ev with
  | Ext (plt_hist _ _ _ _ _) (Returned h) => is_triple h
  | Ext _ (Returned _) => true
  | Ext _ (Raised _) => false
  | Write _ _ => true
  end.

(** The five imports, all successful. *)
Definition imported (m1 m2 m3 m4 m5 : value) : list event :=
  [ok (import_ "argparse") m1; ok (import_ "sys") m2;
   ok (import_ "matplotlib.pyplot") m3; ok (import_ "numpy") m4;
   ok (from_import "ns" "ns") m5].

(** What the ns-3 library answered while the generator was set up. *)
Record setup : Type :=
  mkSetup { the_rng : value; the_mean : value; mean_set : value;
            the_variance : value; variance_set : value }.

Definition configured (s : setup) : list event :=
  [ok (ns_CreateObject "NormalRandomVariable") (the_rng s);
   ok (ns_DoubleValue 100.0) (the_mean s);
   ok (rng_SetAttribute (the_rng s) "Mean" (the_mean s)) (mean_set s);
   ok (ns_DoubleValue 225.0) (the_variance s);
   ok (rng_SetAttribute (the_rng s) "Variance" (the_variance s))
      (variance_set s)].

Definition sampled (rng : value) (xs : list value) : list event :=
  map (ok (rng_GetValue rng)) xs.

Definition hist_call (x : list value) : call := plt_hist x 50 true "g" 0.75.
Definition title_call : call := plt_title "ns-3 histogram".
Definition text_call : call := plt_text 60 0.025 "$\mu=100,\ \sigma=15$".
Definition axis_call : call :=
  plt_axis [VInt 40; VInt 160; VInt 0; VFloat 0.03].
Definition grid_call : call := plt_grid true.

(** The events up to the end of the sampling. *)
Definition drawn (s : setup) (xs : list value) : list event :=
  configured s ++ sampled (the_rng s) xs.

(** The runs of [main] once the arguments are parsed: every way in which the
    body can stop, with the events up to there. *)
Inductive body_run (nb : bool) : list event -> unit + exn -> Prop :=
| stop_create e :
    body_run nb [ko (ns_CreateObject "NormalRandomVariable") e] (inr e)
| stop_mean rng e :
    body_run nb [ok (ns_CreateObject "NormalRandomVariable") rng;
                 ko (ns_DoubleValue 100.0) e] (inr e)
| stop_set_mean rng mean e :
    body_run nb [ok (ns_CreateObject "NormalRandomVariable") rng;
                 ok (ns_DoubleValue 100.0) mean;
                 ko (rng_SetAttribute rng "Mean" mean) e] (inr e)
| stop_variance rng mean r1 e :
    body_run nb [ok (ns_CreateObject "NormalRandomVariable") rng;
                 ok (ns_DoubleValue 100.0) mean;
                 ok (rng_SetAttribute rng "Mean" mean) r1;
                 ko (ns_DoubleValue 225.0) e] (inr e)
| stop_set_variance rng mean r1 variance e :
    body_run nb [ok (ns_CreateObject "NormalRandomVariable") rng;
                 ok (ns_DoubleValue 100.0) mean;
                 ok (rng_SetAttribute rng "Mean" mean) r1;
                 ok (ns_DoubleValue 225.0) variance;
                 ko (rng_SetAttribute rng "Variance" variance) e] (inr e)
| stop_sampling s xs e :
    Z.of_nat (List.length xs) < 10000 ->
    body_run nb (drawn s xs ++ [ko (rng_GetValue (the_rng s)) e]) (inr e)
| stop_hist s xs e :
    Z.of_nat (List.length xs) = 10000 ->
    body_run nb (drawn s xs ++ [ko (hist_call xs) e]) (inr e)
| stop_unpack s xs h e :
    Z.of_nat (List.length xs) = 10000 ->
    unpack h = inr e ->
    body_run nb (drawn s xs ++ [ok (hist_call xs) h]) (inr e)
| stop_title s xs h e :
    Z.of_nat (List.length xs) = 10000 ->
    is_triple h = true ->
    body_run nb (drawn s xs ++ [ok (hist_call xs) h; ko title_call e]) (inr e)
| stop_text s xs h v1 e :
    Z.of_nat (List.length xs) = 10000 ->
    is_triple h = true ->
    body_run nb (drawn s xs ++ [ok (hist_call xs) h; ok title_call v1;
                                ko text_call e]) (inr e)
| stop_axis s xs h v1 v2 e :
    Z.of_nat (List.length xs) = 10000 ->
    is_triple h = true ->
    body_run nb (drawn s xs ++ [ok (hist_call xs) h; ok title_call v1;
                                ok text_call v2; ko axis_call e]) (inr e)
| stop_grid s xs h v1 v2 v3 e :
    Z.of_nat (List.length xs) = 10000 ->
    is_triple h = true ->
    body_run nb (drawn s xs ++ [ok (hist_call xs) h; ok title_call v1;
                                ok text_call v2; ok axis_call v3;
                                ko grid_call e]) (inr e)
| stop_show s xs h v1 v2 v3 v4 e :
    Z.of_nat (List.length xs) = 10000 ->
    is_triple h = true ->
    body_run nb (drawn s xs ++ [ok (hist_call xs) h; ok title_call v1;
                                ok text_call v2; ok axis_call v3;
                                ok grid_call v4; ko (plt_show (negb nb)) e])
             (inr e)
| completed s xs h v1 v2 v3 v4 v5 :
    Z.of_nat (List.length xs) = 10000 ->
    is_triple h = true ->
    body_run nb (drawn s xs ++ [ok (hist_call xs) h; ok title_call v1;
                                ok text_call v2; ok axis_call v3;
                                ok grid_call v4; ok (plt_show (negb nb)) v5])
             (inl tt).

(** The runs of [main]. *)
Inductive main_run (args : list string) : list event -> unit + exn -> Prop :=
| main_error err :
    match _parse_known_args args with
    | failed e => err = e
    | parsed _ (a :: argv) => err = unrecognized_arguments (a :: argv)
    | _ => False
    end ->
    main_run args [Write stderr (usage prog);
                   Write stderr (error_message prog err)]
             (inr (SystemExit (VInt 2)))
| main_help :
    _parse_known_args args = help_requested ->
    main_run args [Write stdout (help prog)] (inr (SystemExit (VInt 0)))
| main_body ns t r :
    _parse_known_args args = parsed ns [] ->
    body_run (not_blocking ns) t r ->
    main_run args t r.

(** The runs of the module. *)
Inductive script_run (sys_argv : list string) (__name__ : string)
  : list event -> unit + exn -> Prop :=
| stop_import_argparse e :
    script_run sys_argv __name__ [ko (import_ "argparse") e] (inr e)
| stop_import_sys m1 e :
    script_run sys_argv __name__
               [ok (import_ "argparse") m1; ko (import_ "sys") e] (inr e)
| stop_import_pyplot m1 m2 e :
    script_run sys_argv __name__
               [ok (import_ "argparse") m1; ok (import_ "sys") m2;
                ko (import_ "matplotlib.pyplot") e] (inr e)
| stop_import_numpy m1 m2 m3 e :
    script_run sys_argv __name__
               [ok (import_ "argparse") m1; ok (import_ "sys") m2;
                ok (import_ "matplotlib.pyplot") m3; ko (import_ "numpy") e]
               (inr e)
| ns_not_found m1 m2 m3 m4 e :
    isinstance e "ModuleNotFoundError" = true ->
    script_run sys_argv __name__
               [ok (import_ "argparse") m1; ok (import_ "sys") m2;
                ok (import_ "matplotlib.pyplot") m3; ok (import_ "numpy") m4;
                ko (from_import "ns" "ns") e]
               (inr (SystemExit (VStr diagnostic)))
| stop_import_ns m1 m2 m3 m4 e :
    isinstance e "ModuleNotFoundError" = false ->
    script_run sys_argv __name__
               [ok (import_ "argparse") m1; ok (import_ "sys") m2;
                ok (import_ "matplotlib.pyplot") m3; ok (import_ "numpy") m4;
                ko (from_import "ns" "ns") e]
               (inr e)
| not_main m1 m2 m3 m4 m5 :
    __name__ <> "__main__" ->
    script_run sys_argv __name__ (imported m1 m2 m3 m4 m5) (inl tt)
| run_main m1 m2 m3 m4 m5 t r :
    __name__ = "__main__" ->
    main_run (skipn 1 sys_argv) t r ->
    script_run sys_argv __name__ (imported m1 m2 m3 m4 m5 ++ t) r.

(** Every call of the trace has the outcome that the oracle gave it. *)
Definition answered (w : oracle) (t : list event) : Prop :=
  forall c o, In (Ext c o) t -> exists past, w past c = o.

Definition sound {A : Type} (m : M A) : Prop :=
  forall w past, answered w (fst (m w past)).

(** Libraries that never raise, and libraries whose [plt.hist] returns three
    items whenever it returns. *)
Definition always_returns (w : oracle) : Prop :=
  forall past c, exists v, w past c = Returned v.

Definition hist_returns_triple (w : oracle) : Prop :=
  forall past x bins density facecolor alpha v,
    w past (plt_hist x bins density facecolor alpha) = Returned v ->
    is_triple v = true.

(** The events of a run that completes. *)
Definition displayed (nb : bool) (h v1 v2 v3 v4 v5 : value)
    (xs : list value) : list event :=
  [ok (hist_call xs) h; ok title_call v1; ok text_call v2; ok axis_call v3;
   ok grid_call v4; ok (plt_show (negb nb)) v5].

Definition is_create (c : call) : bool :=
  match c with ns_CreateObject _ => true | _ => false end.

(** Every call, and every call but [plt.show]. *)
Definition is_any (c : call) : bool := true.
Definition not_show (c : call) : bool := negb (is_show c).

(** The object on which a method of the generator is called. *)
Definition receiver (c : call) : option value :=
  match c with
  | rng_SetAttribute rng _ _ | rng_GetValue rng => Some rng
  | _ => None
  end.

(** The body of [main] after the parse, as a function of the flag, over any
    list in place of [range(10000)]. *)
Definition body_of_main (nb : bool) (l : list Z) : M unit :=
  rng <- ext (ns_CreateObject "NormalRandomVariable") ;;
  mean <- ext (ns_DoubleValue 100.0) ;;
  ext (rng_SetAttribute rng "Mean" mean) ;;
  variance <- ext (ns_DoubleValue 225.0) ;;
  ext (rng_SetAttribute rng "Variance" variance) ;;
  x <- list_comp (fun _ => ext (rng_GetValue rng)) l ;;
  h <- ext (plt_hist x 50 true "g" 0.75) ;;
  unpack3 h ;;
  ext (plt_title "ns-3 histogram") ;;
  ext (plt_text 60 0.025 "$\mu=100,\ \sigma=15$") ;;
  ext (plt_axis [VInt 40; VInt 160; VInt 0; VFloat 0.03]) ;;
  ext (plt_grid true) ;;
  ext (plt_show (negb nb)) ;;
  ret tt.

(** ** Library doubles for the examples *)

(** Libraries that answer every call: opaque objects for the modules, the
    generator and the attribute values, [x] for every [GetValue], three empty
    lists for [plt.hist], [None] elsewhere. *)
Definition stub (x : value) : oracle :=
  fun _ c =>
    match c with
    | import_ _ | from_import _ _ => Returned (VObject 0)
    | ns_CreateObject _ => Returned (VObject 1)
    | ns_DoubleValue _ => Returned (VObject 2)
    | rng_GetValue _ => Returned x
    | plt_hist _ _ _ _ _ => Returned (VTuple [VList []; VList []; VList []])
    | _ => Returned VNone
    end.

(** The same libraries without ns-3: its import raises [e]. *)
Definition without_ns (e : exn) : oracle :=
  fun past c =>
    match c with
    | from_import _ _ => Raised e
    | _ => stub VNone past c
    end.

(** Libraries whose [plt.hist] returns [None], as a bare test double would. *)
Definition hist_returns_none : oracle :=
  fun past c =>
    match c with
    | plt_hist _ _ _ _ _ => Returned VNone
    | _ => stub VNone past c
    end.

(** Libraries in which the calls of a kind raise [e]. *)
Definition raising (p : call -> bool) (e : exn) : oracle :=
  fun past c => if p c then Raised e else stub VNone past c.

(** A generator that counts: the n-th [GetValue] returns n, from 0. *)
Definition counter : oracle :=
  fun past c =>
    match c with
    | rng_GetValue _ =>
        match past with
        | Ext (rng_GetValue _) (Returned (VInt n)) :: _ => Returned (VInt (n + 1))
        | _ => Returned (VInt 0)
        end
    | _ => stub VNone past c
    end.

(** ** The parser: lemmas *)

Lemma prefix_inv (s t : string) :
  String.prefix s t = true -> In s (prefixes t).
Proof.
  revert s; induction t as [|c t IH]; intros [|a s] H; simpl in *;
    try (now left); try discriminate.
  right. destruct (ascii_dec a c) as [->|]; [|discriminate].
  apply in_map. now apply IH.
Qed.

Lemma lookup_option_inv (s : string) (a : action) :
  lookup_option s = Some a -> In (s, a) _option_string_actions.
Proof.
  unfold lookup_option.
  destruct (find _ _) as [[k b]|] eqn:F; [|discriminate].
  intros [= <-]. apply find_some in F as [I E].
  simpl in E. apply String.eqb_eq in E. now subst.
Qed.

Lemma consume_explicit_inv (a : action) (o e : string) (acts : list action) :
  consume_explicit a o e = inl acts ->
  second_is_dash o = false /\ exists rest, acts = a :: rest.
Proof.
  destruct e as [|c rest]; simpl; [discriminate|].
  destruct (second_is_dash o); [discriminate|].
  destruct (lookup_option _) as [a'|]; [|discriminate].
  destruct rest as [|c' rest'].
  - intros [= <-]. eauto.
  - destruct (consume_explicit a' _ _); [|discriminate].
    intros [= <-]. eauto.
Qed.

(** An option of the table that is read with an explicit argument and not
    rejected is [-h]: the help action is among the actions taken. *)
Lemma explicit_is_help (a : action) (o e : string) (acts : list action) :
  In (o, a) _option_string_actions ->
  consume_explicit a o e = inl acts ->
  o = "-h" /\ has_help acts = true.
Proof.
  intros I C. apply consume_explicit_inv in C as [D [rest ->]].
  simpl in I. destruct I as [[= <- <-]|[[= <- <-]|[[= <- <-]|[]]]];
    simpl in D; try discriminate.
  now split.
Qed.

Lemma split_eq_app (s l r : string) :
  split_eq s = Some (l, r) -> s = (l ++ String "="%char r)%string.
Proof.
  revert l; induction s as [|c s IH]; intros l; simpl; [discriminate|].
  destruct (Ascii.eqb_spec c "="%char) as [->|].
  - now intros [= <- <-].
  - destruct (split_eq s) as [[l' r']|]; [|discriminate].
    intros [= <- <-]. simpl. f_equal. now apply IH.
Qed.

(** The tuples of [_get_option_tuples]: each is an entry of the table; one
    with an explicit argument is rejected or is [-h] heading the string; one
    without has an option string that the argument abbreviates. *)
Lemma _get_option_tuples_inv (c : ascii) (s : string) (a : action) (k : string)
    (e : option string) :
  In (a, k, e) (_get_option_tuples (String "-"%char (String c s))) ->
  In (k, a) _option_string_actions /\
  match e with
  | None => startswith k (String "-"%char (String c s)) = true
  | Some _ => k = "-h" -> c = "h"%char
  end.
Proof.
  unfold _get_option_tuples. cbn [second_is_dash].
  destruct (Ascii.eqb_spec c "-"%char) as [->|Hc].
  - (* two prefix characters *)
    set (arg := String "-"%char (String "-"%char s)).
    assert (P : exists p x, (match split_eq arg with
                             | Some (l, r) => (l, Some r)
                             | None => (arg, None)
                             end) = (String "-"%char (String "-"%char p), x)
                            /\ (x = None -> p = s)).
    { unfold arg. cbn [split_eq]. cbn.
      destruct (split_eq s) as [[l r]|]; do 2 eexists;
        (split; [reflexivity|]); [discriminate|reflexivity]. }
    destruct P as (p & x & -> & Px).
    unfold _option_string_actions, startswith. cbn [flat_map fst snd app].
    intros I. apply in_app_iff in I as [I|I].
    { cbn in I. destruct I. }
    apply in_app_iff in I as [I|I];
      [|apply in_app_iff in I as [I|I]; [|destruct I]].
    + destruct (String.prefix _ "--help") eqn:E; [|destruct I].
      destruct I as [[= <- <- <-]|[]]. split; [cbn; tauto|].
      destruct x; [discriminate|]. rewrite (Px eq_refl) in E. exact E.
    + destruct (String.prefix _ "--not-blocking") eqn:E; [|destruct I].
      destruct I as [[= <- <- <-]|[]]. split; [cbn; tauto|].
      destruct x; [discriminate|]. rewrite (Px eq_refl) in E. exact E.
  - (* one prefix character *)
    assert (S2 : substring 0 2 (String "-"%char (String c s))
                 = String "-"%char (String c EmptyString)).
    { cbn. now destruct s. }
    rewrite S2. unfold _option_string_actions, startswith.
    cbn [flat_map fst snd app].
    intros I. apply in_app_iff in I as [I|I];
      [|apply in_app_iff in I as [I|I];
        [|apply in_app_iff in I as [I|I]; [|destruct I]]].
    + destruct (String.eqb_spec "-h" (String "-"%char (String c EmptyString)))
        as [E|E].
      * destruct I as [[= <- <- <-]|[]]. split; [cbn; tauto|].
        intros _. now injection E.
      * destruct (String.prefix _ "-h") eqn:P; [|destruct I].
        destruct I as [[= <- <- <-]|[]]. split; [cbn; tauto|]. exact P.
    + destruct (String.eqb_spec "--help" (String "-"%char (String c EmptyString)))
        as [E|E]; [discriminate E|].
      destruct (String.prefix _ "--help") eqn:P; [|destruct I].
      cbn [String.prefix] in P.
      destruct (ascii_dec "-"%char "-"%char); [|discriminate].
      destruct (ascii_dec c "-"%char); [contradiction|discriminate].
    + destruct (String.eqb_spec "--not-blocking"
                                (String "-"%char (String c EmptyString)))
        as [E|E]; [discriminate E|].
      destruct (String.prefix _ "--not-blocking") eqn:P; [|destruct I].
      cbn [String.prefix] in P.
      destruct (ascii_dec "-"%char "-"%char); [|discriminate].
      destruct (ascii_dec c "-"%char); [contradiction|discriminate].
Qed.

Lemma prefix_refl (s : string) : String.prefix s s = true.
Proof.
  induction s as [|c s IH]; simpl; [reflexivity|].
  destruct (ascii_dec c c); [exact IH|contradiction].
Qed.

(** What [_parse_optional] returns when it returns an option tuple. *)
Lemma _parse_optional_inv (s : string) (a : action) (k : string)
    (e : option string) :
  _parse_optional s = optional (a, k, e) ->
  In (k, a) _option_string_actions /\
  match e with
  | None => startswith k s = true
  | Some _ => k = "-h" -> startswith s "-h" = true
  end.
Proof.
  unfold _parse_optional.
  destruct s as [|c0 s0]; [discriminate|].
  destruct (Ascii.eqb_spec c0 "-"%char) as [->|]; [|discriminate].
  cbn [negb].
  destruct (lookup_option _) as [a0|] eqn:L.
  { intros [= <- <- <-]. split; [now apply lookup_option_inv|].
    apply prefix_refl. }
  destruct s0 as [|c s]; [discriminate|].
  cbn [String.length Nat.eqb].
  destruct (split_eq _) as [[o x]|] eqn:S.
  - destruct (lookup_option o) as [a1|] eqn:L1.
    + intros [= <- <- <-]. split; [now apply lookup_option_inv|].
      intros ->. apply split_eq_app in S. rewrite S.
      unfold startswith. cbn [append String.prefix].
      now repeat (destruct (ascii_dec _ _); [|contradiction]).
    + destruct (_get_option_tuples _) as [|t [|t' ts]] eqn:G; try discriminate.
      intros [= ->].
      assert (I : In (a, k, e) (_get_option_tuples (String "-"%char (String c s))))
        by (rewrite G; now left).
      apply _get_option_tuples_inv in I as [I1 I2]. split; [exact I1|].
      destruct e; [|exact I2]. intros K. rewrite (I2 K).
      unfold startswith. cbn [String.prefix].
      repeat (destruct (ascii_dec _ _); [|contradiction]). now destruct s.
  - destruct (_get_option_tuples _) as [|t [|t' ts]] eqn:G; try discriminate.
    intros [= ->].
    assert (I : In (a, k, e) (_get_option_tuples (String "-"%char (String c s))))
      by (rewrite G; now left).
    apply _get_option_tuples_inv in I as [I1 I2]. split; [exact I1|].
    destruct e; [|exact I2]. intros K. rewrite (I2 K).
    unfold startswith. cbn [String.prefix].
    repeat (destruct (ascii_dec _ _); [|contradiction]). now destruct s.
Qed.

(** The arguments that set the flag are [--not-blocking] and its
    abbreviations, and no other string. *)
Lemma sets_flag_inv (s : string) :
  effect_of s = sets_flag -> is_not_blocking_flag s = true.
Proof.
  intros H.
  assert (P : startswith "--not-blocking" s = true).
  { revert H. unfold effect_of.
    destruct (_parse_optional s) as [|[[a k] e]|] eqn:O; try discriminate.
    apply _parse_optional_inv in O as [I1 I2].
    destruct e as [x|]; cbn [consume_optional].
    - destruct (consume_explicit a k x) as [acts|] eqn:C; [|discriminate].
      destruct (explicit_is_help _ _ _ _ I1 C) as [_ ->]. discriminate.
    - simpl in I1.
      destruct I1 as [[= <- <-]|[[= <- <-]|[[= <- <-]|[]]]];
        try discriminate. intros _. exact I2. }
  apply prefix_inv in P. revert H. cbn in P.
  repeat (destruct P as [<-|P]; [vm_compute; congruence|]).
  destruct P.
Qed.

Lemma is_not_blocking_flag_effect (s : string) :
  is_not_blocking_flag s = true ->
  _parse_optional s = optional (store_true_not_blocking, "--not-blocking", None).
Proof.
  unfold is_not_blocking_flag. intros H.
  apply andb_prop in H as [L P]. apply prefix_inv in P. revert L. cbn in P.
  repeat (destruct P as [<-|P]; [vm_compute; congruence|]).
  destruct P.
Qed.

(** The arguments that ask for the help begin with [-h] or with [--h]. *)
Lemma prints_help_inv (s : string) :
  effect_of s = prints_help ->
  startswith s "-h" = true \/ startswith s "--h" = true.
Proof.
  intros H.
  assert (P : startswith s "-h" = true \/ startswith "-h" s = true
              \/ startswith "--help" s = true).
  { revert H. unfold effect_of.
    destruct (_parse_optional s) as [|[[a k] e]|] eqn:O; try discriminate.
    apply _parse_optional_inv in O as [I1 I2].
    destruct e as [x|]; cbn [consume_optional].
    - destruct (consume_explicit a k x) as [acts|] eqn:C; [|discriminate].
      destruct (explicit_is_help _ _ _ _ I1 C) as [K _]. intros _.
      left. now apply I2.
    - simpl in I1.
      destruct I1 as [[= <- <-]|[[= <- <-]|[[= <- <-]|[]]]];
        try discriminate; intros _; tauto. }
  destruct P as [P|[P|P]]; [now left| |];
    apply prefix_inv in P; revert H; cbn in P;
    repeat (destruct P as [<-|P]; [vm_compute; intuition congruence|]);
    destruct P.
Qed.

Lemma take_actions_Some (acts : list action) (ns ns' : Namespace) :
  take_actions acts ns = Some ns' ->
  has_help acts = false /\ (acts <> [] -> ns' = mkNamespace true).
Proof.
  revert ns; induction acts as [|[|] acts IH]; intros ns; simpl.
  - intros _. split; [reflexivity|congruence].
  - discriminate.
  - intros H. destruct (IH _ H) as [H1 H2]. split; [exact H1|].
    intros _. destruct acts as [|a acts]; [now injection H|].
    apply H2. discriminate.
Qed.

Lemma take_actions_None (acts : list action) (ns : Namespace) :
  take_actions acts ns = None -> has_help acts = true.
Proof.
  revert ns; induction acts as [|[|] acts IH]; intros ns; simpl;
    try discriminate; eauto.
Qed.

Lemma consume_optional_nonempty (t : option_tuple) (acts : list action) :
  consume_optional t = inl acts -> acts <> [].
Proof.
  destruct t as [[a k] [x|]]; simpl.
  - intros C. apply consume_explicit_inv in C as [_ [rest ->]]. discriminate.
  - intros [= <-]. discriminate.
Qed.

(** The first pass keeps the strings in place; each is paired with what
    [_parse_optional] makes of it, or with [no_action] from a [--] on. *)
Lemma classify_inl (argv : list string) (l : list (string * parsed_optional)) :
  classify argv = inl l ->
  map fst l = argv /\
  forall s p, In (s, p) l ->
    p = no_action \/ (p = _parse_optional s /\ s <> "--").
Proof.
  revert l; induction argv as [|s argv IH]; intros l; simpl.
  - intros [= <-]. split; [reflexivity|intros ? ? []].
  - destruct (String.eqb_spec s "--") as [->|N].
    + intros [= <-]. split.
      * simpl. f_equal. rewrite map_map. simpl. apply map_id.
      * intros s p [[= <- <-]|I]; [now left|].
        apply in_map_iff in I as (x & [= <- <-] & _). now left.
    + destruct (classify argv) as [l0|e0].
      * intros H.
        assert (E : l = (s, _parse_optional s) :: l0)
          by (destruct (_parse_optional s); congruence).
        subst l. destruct (IH l0 eq_refl) as [I1 I2]. split.
        { simpl. now f_equal. }
        intros s' p [[= <- <-]|I]; [now right|]. now apply I2.
      * destruct (_parse_optional s); discriminate.
Qed.

Lemma consume_extras (l : list (string * parsed_optional)) (ns ns' : Namespace)
    (ex ex' : list string) :
  consume l ns ex = parsed ns' ex' -> exists more, ex' = ex ++ more.
Proof.
  revert ns ex; induction l as [|[s p] l IH]; intros ns ex; simpl.
  - intros [= <- <-]. exists []. now rewrite app_nil_r.
  - destruct p as [|t|ms].
    + intros H. apply IH in H as [more ->]. exists (s :: more).
      now rewrite <- app_assoc.
    + destruct (consume_optional t) as [acts|[a x]]; [|discriminate].
      destruct (take_actions acts ns); [|discriminate]. apply IH.
    + intros H. apply IH in H as [more ->]. exists (s :: more).
      now rewrite <- app_assoc.
Qed.

(** When the second pass ends with no extras, every string set the flag. *)
Lemma consume_parsed (l : list (string * parsed_optional)) (ns ns' : Namespace)
    (ex : list string) :
  consume l ns ex = parsed ns' [] ->
  ex = [] /\
  (forall s p, In (s, p) l ->
     exists t acts, p = optional t /\ consume_optional t = inl acts
                    /\ has_help acts = false) /\
  ns' = match l with [] => ns | _ => mkNamespace true end.
Proof.
  revert ns ex; induction l as [|[s p] l IH]; intros ns ex; simpl.
  - intros [= <- <-]. repeat split. intros ? ? [].
  - assert (X : forall ex0, consume l ns (ex0 ++ [s]) = parsed ns' [] -> False).
    { intros ex0 H. apply consume_extras in H as [more H].
      destruct ex0; discriminate. }
    destruct p as [|t|ms]; [intros H; destruct (X _ H)| |intros H; destruct (X _ H)].
    destruct (consume_optional t) as [acts|[a x]] eqn:C; [|discriminate].
    destruct (take_actions acts ns) as [ns1|] eqn:T; [|discriminate].
    intros H. apply IH in H as (H1 & H2 & H3).
    apply take_actions_Some in T as [T1 T2].
    specialize (T2 (consume_optional_nonempty _ _ C)). subst ns1.
    repeat split; [exact H1| |now destruct l].
    intros s' p [[= <- <-]|I]; eauto.
Qed.

Lemma consume_help (l : list (string * parsed_optional)) (ns : Namespace)
    (ex : list string) :
  consume l ns ex = help_requested ->
  exists s t acts, In (s, optional t) l /\ consume_optional t = inl acts
                   /\ has_help acts = true.
Proof.
  revert ns ex; induction l as [|[s p] l IH]; intros ns ex; simpl;
    [discriminate|].
  assert (X : forall ns0 ex0, consume l ns0 ex0 = help_requested ->
              exists s0 t acts, In (s0, optional t) ((s, p) :: l)
                /\ consume_optional t = inl acts /\ has_help acts = true).
  { intros ns0 ex0 H. apply IH in H as (s0 & t & acts & I & C & E).
    exists s0, t, acts. repeat split; auto. now right. }
  destruct p as [|t|ms]; [apply X| |apply X].
  destruct (consume_optional t) as [acts|[a x]] eqn:C; [|discriminate].
  destruct (take_actions acts ns) as [ns1|] eqn:T; [apply X|].
  intros _. exists s, t, acts.
  split; [now left|split; [exact C|eapply take_actions_None; eauto]].
Qed.

(** ** The parser: what it accepts *)

(** [parse_args] returns a namespace only for a list of [--not-blocking]
    flags, spelled out or abbreviated, and the namespace says whether there
    was one. *)
Lemma _parse_known_args_parsed (argv : list string) (ns : Namespace) :
  _parse_known_args argv = parsed ns [] ->
  forallb is_not_blocking_flag argv = true /\
  not_blocking ns = existsb is_not_blocking_flag argv.
Proof.
  unfold _parse_known_args.
  destruct (classify argv) as [l|e] eqn:K; [|discriminate].
  intros H. apply consume_parsed in H as (_ & H2 & ->).
  apply classify_inl in K as [K1 K2].
  assert (F : forall s, In s argv -> is_not_blocking_flag s = true).
  { intros s I. rewrite <- K1 in I. apply in_map_iff in I as ([s' p] & <- & I).
    simpl. destruct (H2 _ _ I) as (t & acts & -> & C & E).
    destruct (K2 _ _ I) as [D|[D _]]; [discriminate|].
    apply sets_flag_inv. unfold effect_of. now rewrite <- D, C, E. }
  split; [now apply forallb_forall|].
  destruct argv as [|s argv]; destruct l; try discriminate; [reflexivity|].
  simpl. now rewrite (F s (or_introl eq_refl)).
Qed.

Lemma _parse_known_args_help (argv : list string) :
  _parse_known_args argv = help_requested ->
  exists s, In s argv /\ effect_of s = prints_help.
Proof.
  unfold _parse_known_args.
  destruct (classify argv) as [l|e] eqn:K; [|discriminate].
  intros H. apply consume_help in H as (s & t & acts & I & C & E).
  apply classify_inl in K as [K1 K2].
  exists s. split.
  - rewrite <- K1. now apply (in_map fst) in I.
  - destruct (K2 _ _ I) as [D|[D _]]; [discriminate|].
    unfold effect_of. now rewrite <- D, C, E.
Qed.

(** ** The monad: equations *)

Lemma bind_ext (A : Type) (c : call) (k : value -> M A) (w : oracle)
    (past : list event) :
  (x <- ext c ;; k x) w past =
  match w past c with
  | Returned v => let (t, r) := k v w (ok c v :: past) in (ok c v :: t, r)
  | Raised e => ([ko c e], inr e)
  end.
Proof. unfold bind, ext. now destruct (w past c). Qed.

Lemma bind_eq (A B : Type) (m : M A) (k : A -> M B) (w : oracle)
    (past : list event) :
  (x <- m ;; k x) w past =
  let (t1, r) := m w past in
  match r with
  | inl a => let (t2, r2) := k a w (rev_append t1 past) in (t1 ++ t2, r2)
  | inr e => (t1, inr e)
  end.
Proof. reflexivity. Qed.

(** The list comprehension over one call: the call is made once per element
    until it raises, and the values come back in the order of the calls. *)
Lemma list_comp_ext (A : Type) (c : call) (l : list A) (w : oracle)
    (past : list event) :
  (exists xs, list_comp (fun _ => ext c) l w past = (map (ok c) xs, inl xs)
              /\ List.length xs = List.length l) \/
  (exists xs e, list_comp (fun _ => ext c) l w past
                = (map (ok c) xs ++ [ko c e], inr e)
                /\ (List.length xs < List.length l)%nat).
Proof.
  revert past; induction l as [|a l IH]; intros past.
  - left. exists []. now split.
  - cbn [list_comp]. rewrite bind_ext.
    destruct (w past c) as [v|e].
    + rewrite bind_eq.
      destruct (IH (ok c v :: past)) as [(xs & -> & L)|(xs & e & -> & L)].
      * left. exists (v :: xs). split; [|simpl; lia].
        unfold ret. cbn. now rewrite app_nil_r.
      * right. exists (v :: xs), e. split; [reflexivity|simpl; lia].
    + right. exists [], e. split; [reflexivity|simpl; lia].
Qed.

Lemma length_range (n : Z) : 0 <= n -> Z.of_nat (List.length (range n)) = n.
Proof.
  intros H. unfold range. rewrite length_map, length_seq. lia.
Qed.

Lemma is_triple_unpack (h : value) :
  (is_triple h = true /\ exists p, unpack h = inl p) \/
  (is_triple h = false /\ exists e, unpack h = inr e).
Proof.
  unfold is_triple, unpack.
  destruct (items_of h) as [[|a [|b [|c [|d l]]]]|]; eauto.
Qed.

Lemma unpack_error_not_triple (h : value) (e : exn) :
  unpack h = inr e -> is_triple h = false.
Proof.
  unfold unpack, is_triple.
  destruct (items_of h) as [[|a [|b [|c [|d l]]]]|]; try reflexivity.
  discriminate.
Qed.

(** ** The runs of the script *)

Ltac next_call v e :=
  rewrite bind_ext;
  match goal with
  | |- context [match ?w ?p ?c with Returned _ => _ | Raised _ => _ end] =>
      destruct (w p c) as [v|e]
  end.

(** The body of [main] after the parse, over any list in place of
    [range(10000)]. *)
Lemma body_runs (nb : bool) (l : list Z) (w : oracle) (past : list event) :
  Z.of_nat (List.length l) = 10000 ->
  let body : M unit :=
    rng <- ext (ns_CreateObject "NormalRandomVariable") ;;
    mean <- ext (ns_DoubleValue 100.0) ;;
    ext (rng_SetAttribute rng "Mean" mean) ;;
    variance <- ext (ns_DoubleValue 225.0) ;;
    ext (rng_SetAttribute rng "Variance" variance) ;;
    x <- list_comp (fun _ => ext (rng_GetValue rng)) l ;;
    h <- ext (plt_hist x 50 true "g" 0.75) ;;
    unpack3 h ;;
    ext (plt_title "ns-3 histogram") ;;
    ext (plt_text 60 0.025 "$\mu=100,\ \sigma=15$") ;;
    ext (plt_axis [VInt 40; VInt 160; VInt 0; VFloat 0.03]) ;;
    ext (plt_grid true) ;;
    ext (plt_show (negb nb)) ;;
    ret tt in
  body_run nb (fst (body w past)) (snd (body w past)).
Proof.
  intros L body; subst body.
  next_call rng e; [|apply stop_create].
  next_call mean e; [|apply stop_mean].
  next_call r1 e; [|apply stop_set_mean].
  next_call variance e; [|apply stop_variance].
  next_call r2 e; [|apply stop_set_variance].
  set (s := mkSetup rng mean r1 variance r2).
  rewrite bind_eq.
  match goal with
  | |- context [list_comp _ l w ?p] =>
      destruct (list_comp_ext Z (rng_GetValue rng) l w p)
        as [(xs & -> & Lx)|(xs & e & -> & Lx)]
  end.
  2:{ apply (stop_sampling nb s xs e). lia. }
  assert (X : Z.of_nat (List.length xs) = 10000) by lia.
  next_call h e; [|apply (stop_hist nb s xs e X)].
  rewrite bind_eq. unfold unpack3.
  destruct (is_triple_unpack h) as [[T [p ->]]|[T [e U]]].
  2:{ rewrite U. apply (stop_unpack nb s xs h e X U). }
  cbn [rev_append app].
  next_call v1 e; [|apply (stop_title nb s xs h e X T)].
  next_call v2 e; [|apply (stop_text nb s xs h v1 e X T)].
  next_call v3 e; [|apply (stop_axis nb s xs h v1 v2 e X T)].
  next_call v4 e; [|apply (stop_grid nb s xs h v1 v2 v3 e X T)].
  next_call v5 e; [|apply (stop_show nb s xs h v1 v2 v3 v4 e X T)].
  apply (completed nb s xs h v1 v2 v3 v4 v5 X T).
Qed.

Lemma bind_ret (A B : Type) (a : A) (k : A -> M B) (w : oracle)
    (past : list event) :
  (x <- ret a ;; k x) w past = k a w past.
Proof. rewrite bind_eq. unfold ret. cbn. now destruct (k a w past). Qed.

Lemma bind_error (A B : Type) (err : argparse_error) (k : A -> M B)
    (w : oracle) (past : list event) :
  (x <- error err ;; k x) w past =
  ([Write stderr (usage prog); Write stderr (error_message prog err)],
   inr (SystemExit (VInt 2))).
Proof. reflexivity. Qed.

Lemma bind_help (A B : Type) (k : A -> M B) (w : oracle) (past : list event) :
  (x <- (write stdout (help prog) ;; raise (SystemExit (VInt 0))) ;; k x)
    w past =
  ([Write stdout (help prog)], inr (SystemExit (VInt 0))).
Proof. reflexivity. Qed.

Lemma main_runs (sys_argv : list string) (w : oracle) (past : list event) :
  main_run (skipn 1 sys_argv) (fst (main sys_argv w past))
           (snd (main sys_argv w past)).
Proof.
  unfold main, parse_args.
  destruct (_parse_known_args (skipn 1 sys_argv)) as [ns [|a argv]| |err] eqn:P.
  - rewrite bind_ret. apply (main_body _ ns); [exact P|].
    apply (body_runs (not_blocking ns) (range 10000) w past).
    apply length_range. lia.
  - rewrite bind_error. apply main_error. now rewrite P.
  - rewrite bind_help. now apply main_help.
  - rewrite bind_error. apply main_error. now rewrite P.
Qed.

Lemma script_runs (sys_argv : list string) (__name__ : string) (w : oracle) :
  script_run sys_argv __name__ (fst (script sys_argv __name__ w []))
             (snd (script sys_argv __name__ w [])).
Proof.
  unfold script.
  next_call m1 e; [|apply stop_import_argparse].
  next_call m2 e; [|apply stop_import_sys].
  next_call m3 e; [|apply stop_import_pyplot].
  next_call m4 e; [|apply stop_import_numpy].
  rewrite bind_eq. unfold try_except, ext.
  match goal with
  | |- context [match ?w ?p ?c with Returned _ => _ | Raised _ => _ end] =>
      destruct (w p c) as [m5|e]
  end.
  - cbn [rev_append app].
    destruct (String.eqb_spec __name__ "__main__") as [N|N].
    + match goal with
      | |- context [main sys_argv w ?p] =>
          pose proof (main_runs sys_argv w p) as H;
          destruct (main sys_argv w p) as [t r]
      end.
      exact (run_main _ _ m1 m2 m3 m4 m5 t r N H).
    + exact (not_main _ _ m1 m2 m3 m4 m5 N).
  - destruct (isinstance e "ModuleNotFoundError") eqn:I.
    + exact (ns_not_found _ _ m1 m2 m3 m4 e I).
    + exact (stop_import_ns _ _ m1 m2 m3 m4 e I).
Qed.

(** Every run of the interpreter is one of the runs of the module, followed
    by the last words of the interpreter. *)
Lemma python_runs (w : oracle) (sys_argv : list string) (__name__ : string) :
  exists t r,
    script_run sys_argv __name__ t r /\
    python w sys_argv __name__ = mkRun (t ++ last_words r) r (exit_status r).
Proof.
  unfold python. pose proof (script_runs sys_argv __name__ w) as H.
  destruct (script sys_argv __name__ w []) as [t r]. now exists t, r.
Qed.

(** ** Events of a run *)

(** Splits a hypothesis [In ev t] over a trace built with [::], [++] and
    [sampled]. *)
Ltac in_cases H :=
  repeat match type of H with
         | In _ (_ ++ _) => apply in_app_iff in H; destruct H as [H|H]
         | In _ (map _ _) => apply in_map_iff in H; destruct H as (? & H & _)
         | In _ (_ :: _) => destruct H as [H|H]
         | In _ [] => destruct H
         end.

Lemma in_last_words (r : unit + exn) (ev : event) :
  In ev (last_words r) -> exists x, ev = Write stderr x.
Proof.
  unfold last_words. destruct r as [[]|e]; [intros []|].
  destruct (isinstance e "SystemExit"); [destruct (exc_arg e)|];
    intros H; cbv beta iota in H; in_cases H; eauto.
Qed.

Lemma body_run_events (nb : bool) (t : list event) (r : unit + exn) :
  body_run nb t r ->
  forall ev, In ev t -> exists c o, ev = Ext c o /\ is_import c = false.
Proof.
  intros B ev H.
  destruct B; unfold drawn, configured, sampled, ok, ko in H; in_cases H;
    subst ev; eauto.
Qed.

Lemma main_run_events (args : list string) (t : list event) (r : unit + exn) :
  main_run args t r ->
  forall ev, In ev t ->
    (exists c o, ev = Ext c o /\ is_import c = false)
    \/ exists f x, ev = Write f x.
Proof.
  intros [err E|E|ns t' r' E B] ev H.
  - in_cases H; subst ev; eauto.
  - in_cases H; subst ev; eauto.
  - left. eapply body_run_events; eauto.
Qed.

(** When the import of ns-3 raises, the run is the four imports before it,
    the failed import, and the end that the guard decides. *)
Lemma ns_import_raised (sys_argv : list string) (__name__ : string)
    (t : list event) (r : unit + exn) (e : exn) :
  script_run sys_argv __name__ t r ->
  In (Ext (from_import "ns" "ns") (Raised e)) (t ++ last_words r) ->
  (exists m1 m2 m3 m4,
     t = [ok (import_ "argparse") m1; ok (import_ "sys") m2;
          ok (import_ "matplotlib.pyplot") m3; ok (import_ "numpy") m4;
          ko (from_import "ns" "ns") e]) /\
  r = if isinstance e "ModuleNotFoundError"
      then inr (SystemExit (VStr diagnostic)) else inr e.
Proof.
  intros S H. apply in_app_iff in H as [H|H];
    [|apply in_last_words in H as [x H]; discriminate].
  destruct S as [e0|m1 e0|m1 m2 e0|m1 m2 m3 e0|m1 m2 m3 m4 e0 I
                 |m1 m2 m3 m4 e0 I|m1 m2 m3 m4 m5 N|m1 m2 m3 m4 m5 t' r' N Mn];
    unfold imported, ok, ko in H.
  1-4: in_cases H; discriminate.
  - in_cases H; try discriminate. injection H as <-. rewrite I. eauto 6.
  - in_cases H; try discriminate. injection H as <-. rewrite I. eauto 6.
  - in_cases H; discriminate.
  - apply in_app_iff in H as [H|H]; [in_cases H; discriminate|].
    destruct (main_run_events _ _ _ Mn _ H) as [(c & o & [= <- <-] & X)|(f & x & X)];
      discriminate.
Qed.

(** The last event of a list built with [++] and [::] is in the list. *)
Ltac in_last :=
  repeat match goal with
         | |- In _ (_ ++ _) => apply in_or_app; right
         | |- In _ (_ :: _ :: _) => right
         end;
  left; reflexivity.

(** ** The import guard *)

(** C3, as stated, fails: the guard catches [ModuleNotFoundError] only.
    When the ns-3 package is there and its name [ns] cannot be imported
    from it, the import fails with a plain [ImportError]: the run ends with
    that exception, status 1, and all that is written is its traceback.  The
    guard's message is not written, and the message of the exception does
    not contain "not found". *)
Lemma ns_import_error_without_diagnostic :
  let e := ImportError "cannot import name 'ns' from 'ns'" in
  let r := python (without_ns e) ["sample-rng-plot.py"] "__main__" in
  In (Ext (from_import "ns" "ns") (Raised e)) (trace r) /\
  result r = inr e /\
  status r = 1 /\
  (forall f s, In (Write f s) (trace r) -> f = stderr /\ s = traceback e) /\
  ~ In (Write stderr (str (VStr diagnostic))) (trace r) /\
  contains "not found" "cannot import name 'ns' from 'ns'" = false.
Proof.
  cbv zeta.
  assert (E : python (without_ns
                        (ImportError "cannot import name 'ns' from 'ns'"))
                     ["sample-rng-plot.py"] "__main__"
              = mkRun [ok (import_ "argparse") (VObject 0);
                       ok (import_ "sys") (VObject 0);
                       ok (import_ "matplotlib.pyplot") (VObject 0);
                       ok (import_ "numpy") (VObject 0);
                       ko (from_import "ns" "ns")
                          (ImportError "cannot import name 'ns' from 'ns'");
                       Write stderr
                         (traceback
                            (ImportError "cannot import name 'ns' from 'ns'"))]
                      (inr (ImportError "cannot import name 'ns' from 'ns'"))
                      1)
    by (vm_compute; reflexivity).
  rewrite E. cbn [trace result status]. unfold ok, ko.
  split; [do 4 right; left; reflexivity|].
  split; [reflexivity|]. split; [reflexivity|].
  split; [|split; [|reflexivity]].
  - intros f s H. in_cases H; try discriminate. injection H as <- <-.
    now split.
  - intros H. in_cases H; discriminate.
Qed.

(** C3, amended: when the import of the ns-3 module fails because the module
    is not found ([ModuleNotFoundError]), the process ends with a non-zero
    status (1), the guard's message is written to the standard error stream
    and contains "not found", and the only calls of the run are imports: no
    generator is constructed, no value drawn, nothing plotted. *)
Theorem missing_ns_module_diagnostic (w : oracle) (sys_argv : list string)
    (__name__ : string) (e : exn) :
  In (Ext (from_import "ns" "ns") (Raised e))
     (trace (python w sys_argv __name__)) ->
  isinstance e "ModuleNotFoundError" = true ->
  let r := python w sys_argv __name__ in
  status r = 1 /\
  result r = inr (SystemExit (VStr diagnostic)) /\
  In (Write stderr (str (VStr diagnostic))) (trace r) /\
  contains "not found" diagnostic = true /\
  (forall c o, In (Ext c o) (trace r) -> is_import c = true).
Proof.
  intros H I r. subst r.
  destruct (python_runs w sys_argv __name__) as (t & r & S & E).
  rewrite E in *. cbn [trace result status] in *.
  destruct (ns_import_raised _ _ _ _ _ S H) as [(m1 & m2 & m3 & m4 & ->) ->].
  rewrite I. repeat split.
  - apply in_app_iff. right. now left.
  - intros c o X. apply in_app_iff in X as [X|X].
    + unfold ok, ko in X. in_cases X; injection X as <- _; reflexivity.
    + apply in_last_words in X as [x X]. discriminate.
Qed.

Lemma missing_ns_module_diagnostic_witness :
  let r := python (without_ns (ModuleNotFoundError "No module named 'ns'"))
                  ["sample-rng-plot.py"] "__main__" in
  status r = 1 /\
  result r = inr (SystemExit (VStr diagnostic)) /\
  In (Write stderr (str (VStr diagnostic))) (trace r) /\
  contains "not found" diagnostic = true /\
  (forall c o, In (Ext c o) (trace r) -> is_import c = true).
Proof.
  apply (missing_ns_module_diagnostic
           (without_ns (ModuleNotFoundError "No module named 'ns'"))
           ["sample-rng-plot.py"] "__main__"
           (ModuleNotFoundError "No module named 'ns'")).
  - vm_compute. do 4 right. left. reflexivity.
  - reflexivity.
Defined.

(** C9: the guard turns only a [ModuleNotFoundError] of the ns-3 import into
    the diagnostic.  Any other exception raised by that import, and any
    exception raised by the import of argparse, sys, matplotlib.pyplot or
    numpy, ends the module as it is: the events before it are successful
    imports, and after it come only the interpreter's last words about that
    very exception. *)
Theorem other_import_errors_propagate (w : oracle) (sys_argv : list string)
    (__name__ : string) (c : call) (e : exn) :
  In (Ext c (Raised e)) (trace (python w sys_argv __name__)) ->
  is_import c = true ->
  (c = from_import "ns" "ns" -> isinstance e "ModuleNotFoundError" = false) ->
  let r := python w sys_argv __name__ in
  result r = inr e /\
  exists pre,
    trace r = pre ++ Ext c (Raised e) :: last_words (inr e) /\
    forall ev, In ev pre -> exists c' v, ev = ok c' v /\ is_import c' = true.
Proof.
  intros H Ic N r. subst r.
  destruct (python_runs w sys_argv __name__) as (t & r & S & E).
  rewrite E in *. cbn [trace result status] in *.
  apply in_app_iff in H as [H|H];
    [|apply in_last_words in H as [x H]; discriminate].
  assert (P : forall (pre : list event),
             (forall ev, In ev pre ->
                exists c' v, ev = ok c' v /\ is_import c' = true) ->
             (inr e : unit + exn) = inr e /\
             exists pre0,
               (pre ++ [ko c e]) ++ last_words (inr e)
               = pre0 ++ Ext c (Raised e) :: last_words (inr e) /\
               forall ev, In ev pre0 ->
                 exists c' v, ev = ok c' v /\ is_import c' = true).
  { intros pre F. split; [reflexivity|]. exists pre. split; [|exact F].
    now rewrite <- app_assoc. }
  destruct S as [e0|m1 e0|m1 m2 e0|m1 m2 m3 e0|m1 m2 m3 m4 e0 I
                 |m1 m2 m3 m4 e0 I|m1 m2 m3 m4 m5 Nm|m1 m2 m3 m4 m5 t' r' Nm Mn];
    unfold imported, ok, ko in H.
  - in_cases H; injection H as <- <-. apply (P []). intros ev [].
  - in_cases H; try discriminate; injection H as <- <-.
    apply (P [ok (import_ "argparse") m1]).
    intros ev X; in_cases X; subst ev; eauto.
  - in_cases H; try discriminate; injection H as <- <-.
    apply (P [ok (import_ "argparse") m1; ok (import_ "sys") m2]).
    intros ev X; in_cases X; subst ev; eauto.
  - in_cases H; try discriminate; injection H as <- <-.
    apply (P [ok (import_ "argparse") m1; ok (import_ "sys") m2;
              ok (import_ "matplotlib.pyplot") m3]).
    intros ev X; in_cases X; subst ev; eauto.
  - in_cases H; try discriminate; injection H as <- <-.
    rewrite (N eq_refl) in I. discriminate.
  - in_cases H; try discriminate; injection H as <- <-.
    apply (P [ok (import_ "argparse") m1; ok (import_ "sys") m2;
              ok (import_ "matplotlib.pyplot") m3; ok (import_ "numpy") m4]).
    intros ev X; in_cases X; subst ev; eauto.
  - in_cases H; discriminate.
  - apply in_app_iff in H as [H|H]; [in_cases H; discriminate|].
    destruct (main_run_events _ _ _ Mn _ H)
      as [(c0 & o & [= <- <-] & X)|(f & x & X)]; [|discriminate].
    rewrite Ic in X. discriminate.
Qed.

Lemma other_import_errors_propagate_witness :
  let e := ImportError "cannot import name 'ns' from 'ns'" in
  let r := python (without_ns e) ["sample-rng-plot.py"] "__main__" in
  result r = inr e /\
  exists pre,
    trace r = pre ++ Ext (from_import "ns" "ns") (Raised e)
                     :: last_words (inr e) /\
    forall ev, In ev pre -> exists c' v, ev = ok c' v /\ is_import c' = true.
Proof.
  apply (other_import_errors_propagate
           (without_ns (ImportError "cannot import name 'ns' from 'ns'"))
           ["sample-rng-plot.py"] "__main__" (from_import "ns" "ns")
           (ImportError "cannot import name 'ns' from 'ns'")).
  - vm_compute. do 4 right. left. reflexivity.
  - reflexivity.
  - reflexivity.
Defined.

(** C10: the guarded import runs when the module is loaded, before [main]
    and its parser.  With the other libraries in place and the ns-3 module
    not found, every argument list, well formed or not, and every module
    name give the same run: the five imports, the guard's message, status 1;
    argparse writes neither usage nor help. *)
Theorem missing_ns_before_parsing (w : oracle) (e : exn) :
  (forall past m, exists v, w past (import_ m) = Returned v) ->
  (forall past, w past (from_import "ns" "ns") = Raised e) ->
  isinstance e "ModuleNotFoundError" = true ->
  forall (sys_argv : list string) (__name__ : string),
    let r := python w sys_argv __name__ in
    (exists m1 m2 m3 m4,
       trace r = [ok (import_ "argparse") m1; ok (import_ "sys") m2;
                  ok (import_ "matplotlib.pyplot") m3; ok (import_ "numpy") m4;
                  ko (from_import "ns" "ns") e;
                  Write stderr (str (VStr diagnostic))]) /\
    result r = inr (SystemExit (VStr diagnostic)) /\
    status r = 1 /\
    (forall f p, ~ In (Write f (usage p)) (trace r)) /\
    (forall f p, ~ In (Write f (help p)) (trace r)).
Proof.
  intros Hi Hn I sys_argv __name__ r. subst r.
  assert (X : exists m1 m2 m3 m4,
             python w sys_argv __name__ =
             mkRun [ok (import_ "argparse") m1; ok (import_ "sys") m2;
                    ok (import_ "matplotlib.pyplot") m3;
                    ok (import_ "numpy") m4; ko (from_import "ns" "ns") e;
                    Write stderr (str (VStr diagnostic))]
                   (inr (SystemExit (VStr diagnostic))) 1).
  { unfold python, script.
    rewrite bind_ext. destruct (Hi [] "argparse") as [m1 ->].
    rewrite bind_ext. destruct (Hi [ok (import_ "argparse") m1] "sys") as [m2 ->].
    rewrite bind_ext.
    destruct (Hi [ok (import_ "sys") m2; ok (import_ "argparse") m1]
                 "matplotlib.pyplot") as [m3 ->].
    rewrite bind_ext.
    destruct (Hi [ok (import_ "matplotlib.pyplot") m3; ok (import_ "sys") m2;
                  ok (import_ "argparse") m1] "numpy") as [m4 ->].
    rewrite bind_eq. unfold try_except, ext. rewrite Hn, I.
    exists m1, m2, m3, m4. reflexivity. }
  destruct X as (m1 & m2 & m3 & m4 & ->). cbn [trace result status].
  split; [now exists m1, m2, m3, m4|].
  repeat split; intros f p H; unfold ok, ko in H; in_cases H; discriminate.
Qed.

Lemma missing_ns_before_parsing_witness :
  let e := ModuleNotFoundError "No module named 'ns'" in
  let r := python (without_ns e) ["sample-rng-plot.py"; "--bogus"] "__main__" in
  (exists m1 m2 m3 m4,
     trace r = [ok (import_ "argparse") m1; ok (import_ "sys") m2;
                ok (import_ "matplotlib.pyplot") m3; ok (import_ "numpy") m4;
                ko (from_import "ns" "ns") e;
                Write stderr (str (VStr diagnostic))]) /\
  result r = inr (SystemExit (VStr diagnostic)) /\
  status r = 1 /\
  (forall f p, ~ In (Write f (usage p)) (trace r)) /\
  (forall f p, ~ In (Write f (help p)) (trace r)).
Proof.
  apply (missing_ns_before_parsing
           (without_ns (ModuleNotFoundError "No module named 'ns'"))
           (ModuleNotFoundError "No module named 'ns'")).
  - intros past m. exists (VObject 0). reflexivity.
  - reflexivity.
  - reflexivity.
Defined.

(** ** Calls of [main] *)

Lemma reaches_In (p : call -> bool) (r : run) :
  reaches p r = true <-> exists c o, In (Ext c o) (trace r) /\ p c = true.
Proof.
  unfold reaches. rewrite existsb_exists. split.
  - intros ([c o|f x] & I & P); [|discriminate]. eauto.
  - intros (c & o & I & P). exists (Ext c o). now split.
Qed.

(** A call that is not an import is a call of the body of [main]: the
    module runs as [__main__], the five imports succeeded and the arguments
    were parsed. *)
Lemma call_in_body (sys_argv : list string) (__name__ : string)
    (t : list event) (r : unit + exn) (c : call) (o : outcome) :
  script_run sys_argv __name__ t r ->
  In (Ext c o) (t ++ last_words r) ->
  is_import c = false ->
  exists m1 m2 m3 m4 m5 ns t',
    __name__ = "__main__" /\
    _parse_known_args (skipn 1 sys_argv) = parsed ns [] /\
    body_run (not_blocking ns) t' r /\
    t = imported m1 m2 m3 m4 m5 ++ t' /\
    In (Ext c o) t'.
Proof.
  intros S H Ic. apply in_app_iff in H as [H|H];
    [|apply in_last_words in H as [x H]; discriminate].
  destruct S as [e0|m1 e0|m1 m2 e0|m1 m2 m3 e0|m1 m2 m3 m4 e0 I
                 |m1 m2 m3 m4 e0 I|m1 m2 m3 m4 m5 Nm|m1 m2 m3 m4 m5 t' r' Nm Mn];
    unfold imported, ok, ko in H.
  1-7: in_cases H; injection H as <- <-; discriminate.
  apply in_app_iff in H as [H|H];
    [in_cases H; injection H as <- <-; discriminate|].
  destruct Mn as [err E|E|ns t' r' E B].
  - in_cases H; discriminate.
  - in_cases H; discriminate.
  - exists m1, m2, m3, m4, m5, ns, t'. now repeat split.
Qed.

(** ** The flag and the display *)

(** C1: in every run that reaches the display, [plt.show] is called with
    [block] true when no argument is the [--not-blocking] flag and with
    [block] false when one is; the flag is [--not-blocking] or one of the
    abbreviations of it that argparse accepts.  In particular the display
    blocks when there is no argument (the flag is off by default) and does
    not block when [--not-blocking] is in the list (the flag stands alone,
    without a value). *)
Theorem show_blocks_unless_flag (w : oracle) (sys_argv : list string)
    (__name__ : string) (block : bool) :
  reaches (is_show_with block) (python w sys_argv __name__) = true ->
  block = negb (existsb is_not_blocking_flag (skipn 1 sys_argv)) /\
  (skipn 1 sys_argv = [] -> block = true) /\
  (In "--not-blocking" (skipn 1 sys_argv) -> block = false).
Proof.
  intros H.
  assert (G : block = negb (existsb is_not_blocking_flag (skipn 1 sys_argv))).
  { apply reaches_In in H as (c & o & H & P).
    destruct (python_runs w sys_argv __name__) as (t & r & S & E).
    rewrite E in H. cbn [trace] in H.
    assert (Ic : is_import c = false) by (now destruct c).
    destruct (call_in_body _ _ _ _ _ _ S H Ic)
      as (m1 & m2 & m3 & m4 & m5 & ns & t' & _ & A & B & _ & I).
    apply _parse_known_args_parsed in A as [_ <-].
    destruct B; unfold drawn, configured, sampled, ok, ko in I; in_cases I;
      injection I as <- <-; try discriminate;
      cbn in P; symmetry; now apply Bool.eqb_prop. }
  split; [exact G|]. split.
  - intros N. rewrite N in G. exact G.
  - intros I. rewrite G. apply negb_false_iff, existsb_exists.
    exists "--not-blocking". now split.
Qed.


(** ** Counting calls *)

Lemma filter_sampled_none (p : call -> bool) (rng : value) (xs : list value) :
  p (rng_GetValue rng) = false ->
  filter (is_call p) (map (ok (rng_GetValue rng)) xs) = [].
Proof.
  intros H. induction xs as [|x xs IH]; [reflexivity|].
  cbn [map filter is_call ok]. now rewrite H.
Qed.

Lemma filter_sampled_all (p : call -> bool) (rng : value) (xs : list value) :
  p (rng_GetValue rng) = true ->
  filter (is_call p) (map (ok (rng_GetValue rng)) xs)
  = map (ok (rng_GetValue rng)) xs.
Proof.
  intros H. induction xs as [|x xs IH]; [reflexivity|].
  cbn [map filter is_call ok]. rewrite H. now f_equal.
Qed.

Lemma filter_last_words (p : call -> bool) (r : unit + exn) :
  filter (is_call p) (last_words r) = [].
Proof.
  unfold last_words. destruct r as [[]|e]; [reflexivity|].
  destruct (isinstance e "SystemExit"); [destruct (exc_arg e)|]; reflexivity.
Qed.

(** Evaluates [calls p t] over a trace of [main]. *)
Ltac count_calls :=
  unfold calls, drawn, configured, sampled;
  repeat (progress
            (cbn [filter is_call ok ko app is_setup is_GetValue is_hist is_show
                  is_import imported the_rng the_mean mean_set the_variance
                  variance_set hist_call title_call text_call axis_call
                  grid_call];
             rewrite ?filter_app, ?filter_last_words;
             try (rewrite filter_sampled_none by reflexivity);
             try (rewrite filter_sampled_all by reflexivity)));
  rewrite ?app_nil_r.

(** ** The generator *)

(** C4: in every run that reaches the sampling, the trace is the five
    imports, then the construction of a [NormalRandomVariable] and, on that
    object, [SetAttribute("Mean", DoubleValue(100.0))] and
    [SetAttribute("Variance", DoubleValue(225.0))], then the first
    [GetValue]; these five calls are all the set-up calls of the run, so each
    attribute is set once, and before any value is drawn. *)
Theorem generator_configured_before_sampling (w : oracle)
    (sys_argv : list string) (__name__ : string) :
  reaches is_GetValue (python w sys_argv __name__) = true ->
  let r := python w sys_argv __name__ in
  exists m1 m2 m3 m4 m5 s o rest,
    trace r = imported m1 m2 m3 m4 m5 ++ configured s
              ++ Ext (rng_GetValue (the_rng s)) o :: rest /\
    calls is_setup rest = [] /\
    calls is_setup (trace r) = configured s.
Proof.
  intros H r. subst r.
  apply reaches_In in H as (c & o & H & P).
  destruct (python_runs w sys_argv __name__) as (t & r & S & E).
  rewrite E in *. cbn [trace] in *.
  assert (Ic : is_import c = false) by (now destruct c).
  destruct (call_in_body _ _ _ _ _ _ S H Ic)
    as (m1 & m2 & m3 & m4 & m5 & ns & t' & _ & _ & B & -> & I).
  exists m1, m2, m3, m4, m5.
  destruct B as [e|rng e|rng mean e|rng mean r1 e|rng mean r1 variance e
                 |s xs e L|s xs e L|s xs h e L U|s xs h e L U
                 |s xs h v1 e L U|s xs h v1 v2 e L U|s xs h v1 v2 v3 e L U
                 |s xs h v1 v2 v3 v4 e L U|s xs h v1 v2 v3 v4 v5 L U].
  1-5: unfold ok, ko in I; in_cases I; injection I as <- <-; discriminate.
  all: exists s; destruct xs as [|x xs]; [try (cbn in L; lia)|];
    eexists; eexists;
    (split;
     [unfold drawn, sampled; cbn [map]; rewrite <- !app_assoc;
      cbn [app]; reflexivity|]);
    split; count_calls; reflexivity.
Qed.


(** ** The sampling *)

(** A run that reaches the sampling, and in which no [GetValue] raises, goes
    on to [plt.hist]. *)
Lemma sampling_complete (w : oracle) (sys_argv : list string)
    (__name__ : string) :
  reaches is_GetValue (python w sys_argv __name__) = true ->
  none_raised is_GetValue (python w sys_argv __name__) = true ->
  exists m1 m2 m3 m4 m5 s xs o post,
    trace (python w sys_argv __name__)
    = imported m1 m2 m3 m4 m5 ++ drawn s xs ++ Ext (hist_call xs) o :: post /\
    Z.of_nat (List.length xs) = 10000 /\
    calls is_GetValue post = [] /\
    calls is_hist post = [].
Proof.
  intros H R.
  apply reaches_In in H as (c & o & H & P).
  destruct (python_runs w sys_argv __name__) as (t & r & S & E).
  rewrite E in *. cbn [trace] in *.
  assert (Ic : is_import c = false) by (now destruct c).
  destruct (call_in_body _ _ _ _ _ _ S H Ic)
    as (m1 & m2 & m3 & m4 & m5 & ns & t' & _ & _ & B & -> & I).
  exists m1, m2, m3, m4, m5.
  destruct B as [e|rng e|rng mean e|rng mean r1 e|rng mean r1 variance e
                 |s xs e L|s xs e L|s xs h e L U|s xs h e L U
                 |s xs h v1 e L U|s xs h v1 v2 e L U|s xs h v1 v2 v3 e L U
                 |s xs h v1 v2 v3 v4 e L U|s xs h v1 v2 v3 v4 v5 L U].
  1-5: unfold ok, ko in I; in_cases I; injection I as <- <-; discriminate.
  1:{ (* a GetValue raised *)
      exfalso. unfold none_raised in R. cbn [trace] in R.
      rewrite forallb_forall in R.
      assert (X : false = true); [|discriminate].
      apply (R (ko (rng_GetValue (the_rng s)) e)).
      apply in_or_app. left. apply in_or_app. right.
      apply in_or_app. right. now left. }
  all: exists s, xs; eexists; eexists;
    (split; [rewrite <- !app_assoc; cbn [app]; reflexivity|]);
    repeat split; try exact L; count_calls; reflexivity.
Qed.

(** C2: in every run that reaches the sampling and in which no [GetValue]
    raises, [GetValue] is called 10000 times in a row on the generator, and
    the next call is [plt.hist] on the list of the 10000 values returned, in
    the order of the calls, none dropped and none changed.  No [GetValue] and
    no [plt.hist] comes before, no [GetValue] after. *)
Theorem sampling_draws_ten_thousand (w : oracle) (sys_argv : list string)
    (__name__ : string) :
  reaches is_GetValue (python w sys_argv __name__) = true ->
  none_raised is_GetValue (python w sys_argv __name__) = true ->
  let r := python w sys_argv __name__ in
  exists pre rng xs o post,
    trace r = pre ++ sampled rng xs ++ Ext (hist_call xs) o :: post /\
    Z.of_nat (List.length xs) = 10000 /\
    calls is_GetValue (trace r) = sampled rng xs /\
    calls is_GetValue pre = [] /\
    calls is_hist pre = [] /\
    calls is_GetValue post = [].
Proof.
  intros H R r. subst r.
  destruct (sampling_complete _ _ _ H R)
    as (m1 & m2 & m3 & m4 & m5 & s & xs & o & post & -> & L & G & _).
  exists (imported m1 m2 m3 m4 m5 ++ configured s), (the_rng s), xs, o, post.
  split; [unfold drawn; now rewrite <- !app_assoc|].
  split; [exact L|].
  split; [|repeat split; try exact G; count_calls; reflexivity].
  unfold calls in *. unfold drawn. rewrite !filter_app.
  change (Ext (hist_call xs) o :: post) with ([Ext (hist_call xs) o] ++ post).
  rewrite filter_app, G. count_calls. reflexivity.
Qed.


(** ** The calls of a run are answered by the libraries *)

Lemma sound_ext (c : call) : sound (ext c).
Proof.
  intros w past c' o. unfold ext.
  destruct (w past c) as [v|e] eqn:E; intros [[= <- <-]|[]]; eauto.
Qed.

Lemma sound_silent (A : Type) (m : M A) :
  (forall w past c o, ~ In (Ext c o) (fst (m w past))) -> sound m.
Proof. intros H w past c o I. destruct (H _ _ _ _ I). Qed.

Lemma sound_bind (A B : Type) (m : M A) (k : A -> M B) :
  sound m -> (forall a, sound (k a)) -> sound (x <- m ;; k x).
Proof.
  intros Hm Hk w past c o. rewrite bind_eq.
  specialize (Hm w past). destruct (m w past) as [t1 [a|e]]; cbn [fst] in *.
  - specialize (Hk a w (rev_append t1 past)).
    destruct (k a w (rev_append t1 past)) as [t2 r2]. cbn [fst] in *.
    intros I. apply in_app_iff in I as [I|I]; eauto.
  - apply Hm.
Qed.

Lemma sound_try_except (A : Type) (m h : M A) (cls : string) :
  sound m -> sound h -> sound (try_except m cls h).
Proof.
  intros Hm Hh w past c o. unfold try_except.
  specialize (Hm w past). destruct (m w past) as [t1 [a|e]]; cbn [fst] in *.
  - apply Hm.
  - destruct (isinstance e cls); [|apply Hm].
    specialize (Hh w (rev_append t1 past)).
    destruct (h w (rev_append t1 past)) as [t2 r2]. cbn [fst] in *.
    intros I. apply in_app_iff in I as [I|I]; eauto.
Qed.

Lemma sound_list_comp (A B : Type) (f : A -> M B) (l : list A) :
  (forall a, sound (f a)) -> sound (list_comp f l).
Proof.
  intros Hf. induction l as [|a l IH]; cbn [list_comp].
  - apply sound_silent. intros w past c o [].
  - apply sound_bind; [apply Hf|]. intros b.
    apply sound_bind; [apply IH|]. intros bs.
    apply sound_silent. intros w past c o [].
Qed.

Lemma sound_parse_args (args : list string) : sound (parse_args args).
Proof.
  apply sound_silent. intros w past c o. unfold parse_args.
  destruct (_parse_known_args args) as [ns [|a argv]| |err];
    cbn; intuition discriminate.
Qed.

Lemma sound_script (sys_argv : list string) (__name__ : string) :
  sound (script sys_argv __name__).
Proof.
  unfold script.
  repeat (apply sound_bind; [apply sound_ext|intros ?]).
  apply sound_bind.
  { apply sound_try_except; [apply sound_ext|].
    apply sound_silent. intros w past c o []. }
  intros _. destruct (String.eqb __name__ "__main__");
    [|apply sound_silent; intros w past c o []].
  unfold main. apply sound_bind; [apply sound_parse_args|]. intros args.
  repeat (apply sound_bind; [apply sound_ext|intros ?]).
  apply sound_bind; [apply sound_list_comp; intros; apply sound_ext|].
  intros x.
  apply sound_bind; [apply sound_ext|intros ?].
  apply sound_bind; [apply sound_silent; intros w past c o []|intros ?].
  repeat (apply sound_bind; [apply sound_ext|intros ?]).
  apply sound_silent. intros w past c o [].
Qed.

Lemma python_answered (w : oracle) (sys_argv : list string)
    (__name__ : string) :
  answered w (trace (python w sys_argv __name__)).
Proof.
  unfold python. pose proof (sound_script sys_argv __name__ w []) as H.
  destruct (script sys_argv __name__ w []) as [t r]. cbn [fst trace] in *.
  intros c o I. apply in_app_iff in I as [I|I]; [now apply H|].
  apply in_last_words in I as [x I]. discriminate.
Qed.

Lemma all_equal_repeat (A : Type) (a : A) (xs : list A) :
  (forall v, In v xs -> v = a) -> xs = repeat a (List.length xs).
Proof.
  induction xs as [|x xs IH]; intros H; [reflexivity|].
  cbn [List.length repeat]. f_equal.
  - apply H. now left.
  - apply IH. intros v I. apply H. now right.
Qed.

(** C6: with no argument on the command line and a generator whose
    [GetValue] returns 100.0 at every call, a run that reaches the sampling
    draws 10000 values, all 100.0, and calls [plt.hist] once, on that very
    list. *)
Theorem constant_generator_histogram (w : oracle) (sys_argv : list string)
    (__name__ : string) :
  (forall past rng, w past (rng_GetValue rng) = Returned (VFloat 100.0)) ->
  skipn 1 sys_argv = [] ->
  reaches is_GetValue (python w sys_argv __name__) = true ->
  let r := python w sys_argv __name__ in
  let x := repeat (VFloat 100.0) (Z.to_nat 10000) in
  exists pre rng o post,
    trace r = pre ++ sampled rng x ++ Ext (plt_hist x 50 true "g" 0.75) o
                  :: post /\
    calls is_GetValue (trace r) = sampled rng x /\
    calls is_hist (trace r) = [Ext (plt_hist x 50 true "g" 0.75) o] /\
    Z.of_nat (List.length x) = 10000 /\
    Forall (eq (VFloat 100.0)) x.
Proof.
  intros Hw _ H. cbv zeta.
  pose proof (python_answered w sys_argv __name__) as A.
  assert (R : none_raised is_GetValue (python w sys_argv __name__) = true).
  { unfold none_raised. apply forallb_forall.
    intros [c [v|e]|f y] I; try reflexivity.
    destruct c; try reflexivity.
    destruct (A _ _ I) as [past X]. rewrite Hw in X. discriminate. }
  destruct (sampling_complete _ _ _ H R)
    as (m1 & m2 & m3 & m4 & m5 & s & xs & o & post & E & L & G & Gh).
  rewrite E in *. clear H R.
  assert (V : forall v, In v xs -> VFloat 100.0 = v).
  { intros v I.
    assert (J : In (Ext (rng_GetValue (the_rng s)) (Returned v))
                   (imported m1 m2 m3 m4 m5 ++ drawn s xs
                    ++ Ext (hist_call xs) o :: post)).
    { apply in_or_app. right. apply in_or_app. left.
      unfold drawn. apply in_or_app. right.
      unfold sampled. now apply (in_map (ok (rng_GetValue (the_rng s)))). }
    destruct (A _ _ J) as [past Y]. rewrite Hw in Y. now injection Y. }
  assert (X : xs = repeat (VFloat 100.0) (Z.to_nat 10000)).
  { rewrite <- L, Nat2Z.id. apply all_equal_repeat.
    intros v I. symmetry. now apply V. }
  rewrite <- X.
  exists (imported m1 m2 m3 m4 m5 ++ configured s), (the_rng s), o, post.
  split; [unfold drawn; now rewrite <- !app_assoc|].
  split; [|split; [|split; [exact L|now apply Forall_forall]]].
  - change (Ext (hist_call xs) o :: post) with ([Ext (hist_call xs) o] ++ post).
    unfold calls in *. unfold drawn. rewrite !filter_app, G.
    count_calls. reflexivity.
  - change (Ext (hist_call xs) o :: post) with ([Ext (hist_call xs) o] ++ post).
    unfold calls in *. unfold drawn. rewrite !filter_app, Gh.
    count_calls. reflexivity.
Qed.


(** ** The figure *)

(** C7: in every run that reaches the plotting, [plt.hist] is called once,
    right after the 10000 [GetValue] calls, on the list of the values they
    returned, with 50 bins, [density=True], [facecolor="g"] and
    [alpha=0.75].  When it returns its three items and no call that
    decorates the figure raises, the calls that follow are the title
    "ns-3 histogram", the annotation at (60, 0.025), the axis bounds
    [40, 160, 0, 0.03] and the grid, in this order, each returned, and then
    [plt.show], the last call of the run. *)
Theorem histogram_then_figure (w : oracle) (sys_argv : list string)
    (__name__ : string) :
  reaches is_hist (python w sys_argv __name__) = true ->
  let r := python w sys_argv __name__ in
  exists pre rng x o post,
    trace r = pre ++ sampled rng x ++ Ext (plt_hist x 50 true "g" 0.75) o
                  :: post /\
    Z.of_nat (List.length x) = 10000 /\
    calls is_GetValue pre = [] /\
    calls is_hist pre = [] /\
    calls is_hist post = [] /\
    (forall h, o = Returned h -> is_triple h = true ->
     none_raised is_figure r = true ->
     exists v1 v2 v3 v4 block o',
       post = [ok (plt_title "ns-3 histogram") v1;
               ok (plt_text 60 0.025 "$\mu=100,\ \sigma=15$") v2;
               ok (plt_axis [VInt 40; VInt 160; VInt 0; VFloat 0.03]) v3;
               ok (plt_grid true) v4;
               Ext (plt_show block) o'] ++ last_words (result r)).
Proof.
  intros H r. subst r.
  apply reaches_In in H as (c & o & H & P).
  destruct (python_runs w sys_argv __name__) as (t & r & S & E).
  rewrite E in *. cbn [trace result] in *.
  assert (Ic : is_import c = false) by (now destruct c).
  destruct (call_in_body _ _ _ _ _ _ S H Ic)
    as (m1 & m2 & m3 & m4 & m5 & ns & t' & _ & _ & B & -> & I).
  destruct B as [e|rng e|rng mean e|rng mean r1 e|rng mean r1 variance e
                 |s xs e L|s xs e L|s xs h e L U|s xs h e L U
                 |s xs h v1 e L U|s xs h v1 v2 e L U|s xs h v1 v2 v3 e L U
                 |s xs h v1 v2 v3 v4 e L U|s xs h v1 v2 v3 v4 v5 L U].
  1-6: unfold drawn, configured, sampled, ok, ko in I; in_cases I;
    try injection I as <- <-; subst; discriminate.
  all: exists (imported m1 m2 m3 m4 m5 ++ configured s), (the_rng s), xs;
    eexists; eexists;
    (split; [unfold drawn; rewrite <- !app_assoc; cbn [app]; reflexivity|]);
    (split; [exact L|]);
    (split; [count_calls; reflexivity|]);
    (split; [count_calls; reflexivity|]);
    (split; [count_calls; reflexivity|]).
  - (* plt.hist raised *)
    intros h0 X. discriminate X.
  - (* the result does not unpack *)
    intros h0 [= <-] T. rewrite (unpack_error_not_triple _ _ U) in T.
    discriminate T.
  - intros h0 _ _ N. exfalso. unfold none_raised in N. cbn [trace] in N.
    rewrite forallb_forall in N.
    assert (X : false = true); [|discriminate].
    apply (N (ko title_call e)). apply in_or_app. left. in_last.
  - intros h0 _ _ N. exfalso. unfold none_raised in N. cbn [trace] in N.
    rewrite forallb_forall in N.
    assert (X : false = true); [|discriminate].
    apply (N (ko text_call e)). apply in_or_app. left. in_last.
  - intros h0 _ _ N. exfalso. unfold none_raised in N. cbn [trace] in N.
    rewrite forallb_forall in N.
    assert (X : false = true); [|discriminate].
    apply (N (ko axis_call e)). apply in_or_app. left. in_last.
  - intros h0 _ _ N. exfalso. unfold none_raised in N. cbn [trace] in N.
    rewrite forallb_forall in N.
    assert (X : false = true); [|discriminate].
    apply (N (ko grid_call e)). apply in_or_app. left. in_last.
  - intros h0 _ _ _. exists v1, v2, v3, v4, (negb (not_blocking ns)), (Raised e).
    reflexivity.
  - intros h0 _ _ _.
    exists v1, v2, v3, v4, (negb (not_blocking ns)), (Returned v5).
    reflexivity.
Qed.

(** ** The exit status *)

Lemma not_all_normal (t : list event) :
  forallb returns_normally t = true ->
  forall ev, In ev t -> returns_normally ev = false -> False.
Proof.
  intros H ev I F. rewrite forallb_forall in H. rewrite (H _ I) in F.
  discriminate.
Qed.

(** C8: when the imports succeed, the arguments parse and every call into
    the libraries returns normally ([plt.hist] returning its three items),
    the run completes and the exit status is 0. *)
Theorem normal_completion_exit_zero (w : oracle) (sys_argv : list string)
    (__name__ : string) :
  forallb returns_normally (trace (python w sys_argv __name__)) = true ->
  (exists ns, _parse_known_args (skipn 1 sys_argv) = parsed ns []) ->
  let r := python w sys_argv __name__ in
  result r = inl tt /\ status r = 0.
Proof.
  intros H [ns A] r. subst r.
  destruct (python_runs w sys_argv __name__) as (t & r & S & E).
  rewrite E in *. cbn [trace result status] in *.
  rewrite forallb_app in H. apply andb_prop in H as [H _].
  destruct S as [e0|m1 e0|m1 m2 e0|m1 m2 m3 e0|m1 m2 m3 m4 e0 I
                 |m1 m2 m3 m4 e0 I|m1 m2 m3 m4 m5 Nm|m1 m2 m3 m4 m5 t' r' Nm Mn].
  1-6: exfalso; eapply (not_all_normal _ H); [in_last|reflexivity].
  - now split.
  - rewrite forallb_app in H. apply andb_prop in H as [_ H].
    destruct Mn as [err X|X|ns' t' r' X B].
    + rewrite A in X. destruct X.
    + rewrite A in X. discriminate.
    + destruct B as [e|rng e|rng mean e|rng mean r1 e|rng mean r1 variance e
                     |s xs e L|s xs e L|s xs h e L U|s xs h e L U
                     |s xs h v1 e L U|s xs h v1 v2 e L U|s xs h v1 v2 v3 e L U
                     |s xs h v1 v2 v3 v4 e L U|s xs h v1 v2 v3 v4 v5 L U].
      14: now split.
      all: exfalso; eapply (not_all_normal _ H); [in_last|];
        first [reflexivity|cbn; eapply unpack_error_not_triple; eassumption].
Qed.


(** ** Arguments that the parser does not take *)

Lemma imports_and_writes (m1 m2 m3 m4 m5 : value) (ws : list event)
    (r : unit + exn) (c : call) (o : outcome) :
  (forall ev, In ev ws -> exists f x, ev = Write f x) ->
  In (Ext c o) ((imported m1 m2 m3 m4 m5 ++ ws) ++ last_words r) ->
  is_import c = true.
Proof.
  intros W I. apply in_app_iff in I as [I|I];
    [|apply in_last_words in I as [x I]; discriminate].
  apply in_app_iff in I as [I|I].
  - unfold imported, ok in I. in_cases I; injection I as <- _; reflexivity.
  - destruct (W _ I) as (f & x & X). discriminate.
Qed.

(** C5, as stated, fails: the list [--bogus --help] has a flag other than
    [--not-blocking], and the run prints the help and exits with status 0;
    argparse writes no usage error. *)
Lemma help_beside_unknown_flag_exits_zero :
  let sys_argv := ["sample-rng-plot.py"; "--bogus"; "--help"] in
  let r := python (stub VNone) sys_argv "__main__" in
  In "--bogus" (skipn 1 sys_argv) /\
  is_not_blocking_flag "--bogus" = false /\
  trace r = imported (VObject 0) (VObject 0) (VObject 0) (VObject 0)
                     (VObject 0)
            ++ [Write stdout (help prog)] /\
  status r = 0.
Proof.
  vm_compute. repeat split. now left.
Qed.

(** C5, amended: when the imports have succeeded, the module runs as
    [__main__] and some argument is not the [--not-blocking] flag (spelled
    out or abbreviated), the run ends in the parser: its only calls are the
    imports, so no generator is constructed, nothing is drawn or plotted.
    It ends with the usage error of argparse, status 2, or, when an argument
    beginning with [-h] or [--h] asked for the help, possibly with the help,
    status 0.  With no such argument it is the usage error. *)
Theorem unknown_argument_stops_in_parser (w : oracle) (sys_argv : list string)
    (m : value) :
  In (ok (from_import "ns" "ns") m) (trace (python w sys_argv "__main__")) ->
  (exists a, In a (skipn 1 sys_argv) /\ is_not_blocking_flag a = false) ->
  let r := python w sys_argv "__main__" in
  (forall c o, In (Ext c o) (trace r) -> is_import c = true) /\
  (exists m1 m2 m3 m4 m5,
     (exists err,
        trace r = imported m1 m2 m3 m4 m5
                  ++ [Write stderr (usage prog);
                      Write stderr (error_message prog err)] /\
        result r = inr (SystemExit (VInt 2)) /\ status r = 2)
     \/
     (trace r = imported m1 m2 m3 m4 m5 ++ [Write stdout (help prog)] /\
      result r = inr (SystemExit (VInt 0)) /\ status r = 0 /\
      exists a, In a (skipn 1 sys_argv) /\
                (startswith a "-h" = true \/ startswith a "--h" = true))) /\
  ((forall a, In a (skipn 1 sys_argv) ->
      startswith a "-h" = false /\ startswith a "--h" = false) ->
   status r = 2).
Proof.
  intros H (a & Ia & Fa) r. subst r.
  destruct (python_runs w sys_argv "__main__") as (t & r & S & E).
  rewrite E in *. cbn [trace result status] in *.
  apply in_app_iff in H as [H|H];
    [|apply in_last_words in H as [x H]; discriminate].
  destruct S as [e0|m1 e0|m1 m2 e0|m1 m2 m3 e0|m1 m2 m3 m4 e0 I
                 |m1 m2 m3 m4 e0 I|m1 m2 m3 m4 m5 Nm|m1 m2 m3 m4 m5 t' r' Nm Mn].
  1-6: exfalso; unfold ok, ko in H; in_cases H; discriminate.
  - now destruct Nm.
  - clear H. destruct Mn as [err X|X|ns t' r' X B].
    + split; [|split].
      * intros c o I. apply imports_and_writes in I; [exact I|].
        intros ev J. in_cases J; subst ev; eauto.
      * exists m1, m2, m3, m4, m5. left. exists err.
        split; [now rewrite <- app_assoc|now split].
      * reflexivity.
    + apply _parse_known_args_help in X as (b & Ib & Eb).
      apply prints_help_inv in Eb.
      split; [|split].
      * intros c o I. apply imports_and_writes in I; [exact I|].
        intros ev J. in_cases J; subst ev; eauto.
      * exists m1, m2, m3, m4, m5. right.
        split; [now rewrite app_nil_r|]. repeat split. now exists b.
      * intros N. destruct (N b Ib) as [N1 N2].
        destruct Eb as [Eb|Eb]; congruence.
    + exfalso. apply _parse_known_args_parsed in X as [X _].
      rewrite forallb_forall in X. rewrite (X a Ia) in Fa. discriminate.
Qed.

Lemma unknown_argument_stops_in_parser_witness :
  let sys_argv := ["sample-rng-plot.py"; "--bogus"] in
  let r := python (stub VNone) sys_argv "__main__" in
  (forall c o, In (Ext c o) (trace r) -> is_import c = true) /\
  (exists m1 m2 m3 m4 m5,
     (exists err,
        trace r = imported m1 m2 m3 m4 m5
                  ++ [Write stderr (usage prog);
                      Write stderr (error_message prog err)] /\
        result r = inr (SystemExit (VInt 2)) /\ status r = 2)
     \/
     (trace r = imported m1 m2 m3 m4 m5 ++ [Write stdout (help prog)] /\
      result r = inr (SystemExit (VInt 0)) /\ status r = 0 /\
      exists a, In a (skipn 1 sys_argv) /\
                (startswith a "-h" = true \/ startswith a "--h" = true))) /\
  ((forall a, In a (skipn 1 sys_argv) ->
      startswith a "-h" = false /\ startswith a "--h" = false) ->
   status r = 2).
Proof.
  apply (unknown_argument_stops_in_parser
           (stub VNone) ["sample-rng-plot.py"; "--bogus"] (VObject 0)).
  - vm_compute. do 4 right. left. reflexivity.
  - exists "--bogus". split; [now left|reflexivity].
Defined.

(** ** Runs in which no library call raises *)

Lemma never_raises (w : oracle) (t : list event) (c : call) (e : exn) :
  always_returns w -> answered w t -> In (Ext c (Raised e)) t -> False.
Proof.
  intros R A I. destruct (A _ _ I) as [past X].
  destruct (R past c) as [v Y]. rewrite Y in X. discriminate.
Qed.

(** With libraries that never raise, a [plt.hist] that returns three items
    and arguments that parse, the run is complete. *)
Lemma python_completes (w : oracle) (sys_argv : list string) (ns : Namespace) :
  always_returns w ->
  hist_returns_triple w ->
  _parse_known_args (skipn 1 sys_argv) = parsed ns [] ->
  exists m1 m2 m3 m4 m5 s xs h v1 v2 v3 v4 v5,
    Z.of_nat (List.length xs) = 10000 /\
    is_triple h = true /\
    python w sys_argv "__main__"
    = mkRun (imported m1 m2 m3 m4 m5 ++ drawn s xs
             ++ displayed (not_blocking ns) h v1 v2 v3 v4 v5 xs)
            (inl tt) 0.
Proof.
  intros R T P.
  destruct (python_runs w sys_argv "__main__") as (t & r & S & E).
  pose proof (python_answered w sys_argv "__main__") as A.
  rewrite E in A |- *. cbn [trace] in A.
  destruct S as [e0|m1 e0|m1 m2 e0|m1 m2 m3 e0|m1 m2 m3 m4 e0 I
                 |m1 m2 m3 m4 e0 I|m1 m2 m3 m4 m5 Nm|m1 m2 m3 m4 m5 t' r' Nm Mn].
  1-6: exfalso; eapply (never_raises w _ _ _ R A); apply in_or_app; left;
    in_last.
  - now destruct Nm.
  - destruct Mn as [err X|X|ns' t' r' X B];
      [rewrite P in X; destruct X|rewrite P in X; discriminate|].
    rewrite P in X. injection X as <-.
    destruct B as [e|rng e|rng mean e|rng mean r1 e|rng mean r1 variance e
                   |s xs e L|s xs e L|s xs h e L U|s xs h e L U
                   |s xs h v1 e L U|s xs h v1 v2 e L U|s xs h v1 v2 v3 e L U
                   |s xs h v1 v2 v3 v4 e L U|s xs h v1 v2 v3 v4 v5 L U].
    8: { exfalso.
         assert (I : In (Ext (hist_call xs) (Returned h))
                        ((imported m1 m2 m3 m4 m5
                          ++ drawn s xs ++ [ok (hist_call xs) h])
                         ++ last_words (inr e))).
         { apply in_or_app. left. in_last. }
         destruct (A _ _ I) as [past X]. apply T in X.
         rewrite (unpack_error_not_triple _ _ U) in X. discriminate. }
    1-12: exfalso; eapply (never_raises w _ _ _ R A); apply in_or_app; left;
      in_last.
    exists m1, m2, m3, m4, m5, s, xs, h, v1, v2, v3, v4, v5.
    split; [exact L|]. split; [exact U|].
    cbn [last_words exit_status]. now rewrite app_nil_r.
Qed.

(** What the statements ask of a complete run. *)
Lemma complete_run_facts (m1 m2 m3 m4 m5 : value) (s : setup)
    (xs : list value) (nb : bool) (h v1 v2 v3 v4 v5 : value)
    (res : unit + exn) (st : Z) :
  Z.of_nat (List.length xs) = 10000 ->
  is_triple h = true ->
  let r := mkRun (imported m1 m2 m3 m4 m5 ++ drawn s xs
                  ++ displayed nb h v1 v2 v3 v4 v5 xs) res st in
  reaches is_GetValue r = true /\
  reaches is_hist r = true /\
  reaches is_show r = true /\
  reaches (is_show_with (negb nb)) r = true /\
  none_raised is_GetValue r = true /\
  forallb returns_normally (trace r) = true /\
  In (ok (from_import "ns" "ns") m5) (trace r).
Proof.
  intros L T r. subst r. unfold reaches, none_raised. cbn [trace].
  destruct xs as [|x xs]; [discriminate L|].
  split; [|split; [|split; [|split; [|split; [|split]]]]].
  - apply existsb_exists. exists (ok (rng_GetValue (the_rng s)) x).
    split; [|reflexivity].
    apply in_or_app. right. apply in_or_app. left.
    apply in_or_app. right. now left.
  - apply existsb_exists. exists (ok (hist_call (x :: xs)) h).
    split; [|reflexivity].
    apply in_or_app. right. apply in_or_app. right. now left.
  - apply existsb_exists. exists (ok (plt_show (negb nb)) v5).
    split; [|reflexivity]. unfold displayed. in_last.
  - apply existsb_exists. exists (ok (plt_show (negb nb)) v5).
    split; [unfold displayed; in_last|]. apply Bool.eqb_reflx.
  - apply forallb_forall. intros ev I.
    unfold imported, drawn, configured, sampled, displayed in I.
    in_cases I; subst ev; reflexivity.
  - apply forallb_forall. intros ev I.
    unfold imported, drawn, configured, sampled, displayed in I.
    in_cases I; subst ev; try reflexivity. exact T.
  - unfold imported. do 4 right. now left.
Qed.

(** In a complete run no call raised. *)
Lemma complete_run_nothing_raised (p : call -> bool) (m1 m2 m3 m4 m5 : value)
    (s : setup) (xs : list value) (nb : bool) (h v1 v2 v3 v4 v5 : value)
    (res : unit + exn) (st : Z) :
  none_raised p (mkRun (imported m1 m2 m3 m4 m5 ++ drawn s xs
                        ++ displayed nb h v1 v2 v3 v4 v5 xs) res st) = true.
Proof.
  unfold none_raised. cbn [trace]. apply forallb_forall. intros ev I.
  unfold imported, drawn, configured, sampled, displayed in I.
  in_cases I; subst ev; reflexivity.
Qed.

Lemma stub_always_returns (x : value) : always_returns (stub x).
Proof. intros past c. destruct c; eexists; reflexivity. Qed.

Lemma stub_hist_returns_triple (x : value) : hist_returns_triple (stub x).
Proof. intros past xs b d f a v [= <-]. reflexivity. Qed.

Lemma counter_always_returns : always_returns counter.
Proof.
  intros past c. destruct c; try (eexists; reflexivity).
  unfold counter.
  repeat match goal with
         | |- context [match ?x with _ => _ end] => destruct x
         end; eexists; reflexivity.
Qed.

Lemma counter_hist_returns_triple : hist_returns_triple counter.
Proof. intros past xs b d f a v [= <-]. reflexivity. Qed.

(** ** The statements on library doubles *)

(** Runs the libraries [w] on arguments that parse to [ns] and names the
    facts of the complete run. *)
Ltac complete_run w argv ns Hr Ht :=
  let L := fresh "L" in
  let T := fresh "T" in
  let E := fresh "E" in
  destruct (python_completes w argv ns Hr Ht eq_refl)
    as (?m1 & ?m2 & ?m3 & ?m4 & ?m5 & ?s & ?xs & ?h & ?v1 & ?v2 & ?v3 & ?v4
        & ?v5 & L & T & E);
  rewrite E;
  destruct (complete_run_facts m1 m2 m3 m4 m5 s xs (not_blocking ns)
                               h v1 v2 v3 v4 v5 (inl tt) 0 L T)
    as (?F1 & ?F2 & ?F3 & ?F4 & ?F5 & ?F6 & ?F7).

Lemma show_blocks_unless_flag_witness :
  (false = negb (existsb is_not_blocking_flag
                         (skipn 1 ["sample-rng-plot.py"; "--not-blocking"]))) /\
  (skipn 1 ["sample-rng-plot.py"; "--not-blocking"] = [] -> false = true) /\
  (In "--not-blocking" (skipn 1 ["sample-rng-plot.py"; "--not-blocking"]) ->
   false = false).
Proof.
  apply (show_blocks_unless_flag (stub VNone)
           ["sample-rng-plot.py"; "--not-blocking"] "__main__" false).
  complete_run (stub VNone) ["sample-rng-plot.py"; "--not-blocking"]
               (mkNamespace true)
               (stub_always_returns VNone) (stub_hist_returns_triple VNone).
  exact F4.
Defined.

Lemma generator_configured_before_sampling_witness :
  let r := python (stub (VFloat 100.0)) ["sample-rng-plot.py"] "__main__" in
  exists m1 m2 m3 m4 m5 s o rest,
    trace r = imported m1 m2 m3 m4 m5 ++ configured s
              ++ Ext (rng_GetValue (the_rng s)) o :: rest /\
    calls is_setup rest = [] /\
    calls is_setup (trace r) = configured s.
Proof.
  apply (generator_configured_before_sampling
           (stub (VFloat 100.0)) ["sample-rng-plot.py"] "__main__").
  complete_run (stub (VFloat 100.0)) ["sample-rng-plot.py"]
                 (mkNamespace false)
               (stub_always_returns (VFloat 100.0))
               (stub_hist_returns_triple (VFloat 100.0)).
  exact F1.
Defined.

Lemma sampling_draws_ten_thousand_witness :
  let r := python counter ["sample-rng-plot.py"] "__main__" in
  exists pre rng xs o post,
    trace r = pre ++ sampled rng xs ++ Ext (hist_call xs) o :: post /\
    Z.of_nat (List.length xs) = 10000 /\
    calls is_GetValue (trace r) = sampled rng xs /\
    calls is_GetValue pre = [] /\
    calls is_hist pre = [] /\
    calls is_GetValue post = [].
Proof.
  apply (sampling_draws_ten_thousand counter ["sample-rng-plot.py"] "__main__");
    complete_run counter ["sample-rng-plot.py"]
               (mkNamespace false)
                 counter_always_returns counter_hist_returns_triple.
  - exact F1.
  - exact F5.
Defined.

Lemma constant_generator_histogram_witness :
  let r := python (stub (VFloat 100.0)) ["sample-rng-plot.py"] "__main__" in
  let x := repeat (VFloat 100.0) (Z.to_nat 10000) in
  exists pre rng o post,
    trace r = pre ++ sampled rng x ++ Ext (plt_hist x 50 true "g" 0.75) o
                  :: post /\
    calls is_GetValue (trace r) = sampled rng x /\
    calls is_hist (trace r) = [Ext (plt_hist x 50 true "g" 0.75) o] /\
    Z.of_nat (List.length x) = 10000 /\
    Forall (eq (VFloat 100.0)) x.
Proof.
  apply (constant_generator_histogram
           (stub (VFloat 100.0)) ["sample-rng-plot.py"] "__main__").
  - reflexivity.
  - reflexivity.
  - complete_run (stub (VFloat 100.0)) ["sample-rng-plot.py"]
                 (mkNamespace false)
                 (stub_always_returns (VFloat 100.0))
                 (stub_hist_returns_triple (VFloat 100.0)).
    exact F1.
Defined.

Lemma histogram_then_figure_witness :
  let r := python counter ["sample-rng-plot.py"; "--not-blocking"] "__main__" in
  exists pre rng x h v1 v2 v3 v4 block o',
    reaches is_hist r = true /\
    is_triple h = true /\
    none_raised is_figure r = true /\
    trace r = pre ++ sampled rng x
              ++ Ext (plt_hist x 50 true "g" 0.75) (Returned h)
              :: [ok (plt_title "ns-3 histogram") v1;
                  ok (plt_text 60 0.025 "$\mu=100,\ \sigma=15$") v2;
                  ok (plt_axis [VInt 40; VInt 160; VInt 0; VFloat 0.03]) v3;
                  ok (plt_grid true) v4;
                  Ext (plt_show block) o'] ++ last_words (result r) /\
    Z.of_nat (List.length x) = 10000 /\
    calls is_GetValue pre = [] /\
    calls is_hist pre = [].
Proof.
  cbv zeta.
  destruct (python_completes counter ["sample-rng-plot.py"; "--not-blocking"]
              (mkNamespace true) counter_always_returns
              counter_hist_returns_triple eq_refl)
    as (m1 & m2 & m3 & m4 & m5 & s & xs & h & v1 & v2 & v3 & v4 & v5
        & L & T & E).
  destruct (complete_run_facts m1 m2 m3 m4 m5 s xs true h v1 v2 v3 v4 v5
                               (inl tt) 0 L T) as (_ & F2 & _).
  pose proof (complete_run_nothing_raised is_figure m1 m2 m3 m4 m5 s xs true
                                          h v1 v2 v3 v4 v5 (inl tt) 0) as N.
  cbn [not_blocking] in E. rewrite <- E in F2, N.
  destruct (histogram_then_figure counter
              ["sample-rng-plot.py"; "--not-blocking"] "__main__" F2)
    as (pre & rng & x & o & post & Et & Lx & G1 & G2 & G3 & Fig).
  assert (O : o = Returned h).
  { pose proof (f_equal (calls is_hist) Et) as C. rewrite E in C.
    cbn [trace] in C. unfold calls in C, G2, G3. unfold sampled in C.
    rewrite !filter_app in C. rewrite G2 in C.
    rewrite (filter_sampled_none is_hist rng x eq_refl) in C.
    cbn [filter is_call is_hist app] in C. rewrite G3 in C.
    unfold drawn, configured, sampled, displayed, imported in C.
    rewrite !filter_app in C.
    rewrite (filter_sampled_none is_hist (the_rng s) xs eq_refl) in C.
    cbn in C. now injection C as _ <-. }
  destruct (Fig h O T N) as (w1 & w2 & w3 & w4 & block & o' & Ep).
  exists pre, rng, x, h, w1, w2, w3, w4, block, o'.
  split; [exact F2|]. split; [exact T|]. split; [exact N|].
  split; [rewrite Et, O, Ep; reflexivity|].
  split; [exact Lx|]. split; [exact G1|exact G2].
Defined.

Lemma normal_completion_exit_zero_witness :
  let r := python (stub (VFloat 100.0)) ["sample-rng-plot.py"] "__main__" in
  result r = inl tt /\ status r = 0.
Proof.
  apply (normal_completion_exit_zero
           (stub (VFloat 100.0)) ["sample-rng-plot.py"] "__main__").
  - complete_run (stub (VFloat 100.0)) ["sample-rng-plot.py"]
                 (mkNamespace false)
                 (stub_always_returns (VFloat 100.0))
                 (stub_hist_returns_triple (VFloat 100.0)).
    exact F6.
  - exists (mkNamespace false). reflexivity.
Defined.

(** ** Examples *)

(** An abbreviation of the flag is the flag: [--not] turns the blocking
    off. *)
Example abbreviated_flag :
  reaches (is_show_with false)
          (python (stub VNone) ["sample-rng-plot.py"; "--not"] "__main__")
  = true.
Proof.
  complete_run (stub VNone) ["sample-rng-plot.py"; "--not"]
               (mkNamespace true)
               (stub_always_returns VNone) (stub_hist_returns_triple VNone).
  exact F4.
Qed.

(** With no argument the display blocks. *)
Example default_blocks :
  reaches (is_show_with true)
          (python (stub VNone) ["sample-rng-plot.py"] "__main__")
  = true.
Proof.
  complete_run (stub VNone) ["sample-rng-plot.py"]
               (mkNamespace false)
               (stub_always_returns VNone) (stub_hist_returns_triple VNone).
  exact F4.
Qed.

(** The flag takes no value: [--not-blocking=1] and [--not-blocking 1] are
    usage errors. *)
Example flag_takes_no_value :
  _parse_known_args ["--not-blocking=1"]
  = failed (ignored_explicit_argument "--not-blocking" "1") /\
  _parse_known_args ["--not-blocking"; "1"] = parsed (mkNamespace true) ["1"] /\
  status (python (stub VNone) ["sample-rng-plot.py"; "--not-blocking"; "1"]
                 "__main__") = 2.
Proof. vm_compute. repeat split. Qed.

(** Imported as a module, the script imports its libraries and does nothing
    else. *)
Example imported_as_module :
  python (stub VNone) ["other.py"; "--bogus"] "sample_rng_plot"
  = mkRun (imported (VObject 0) (VObject 0) (VObject 0) (VObject 0) (VObject 0))
          (inl tt) 0.
Proof. vm_compute. reflexivity. Qed.

(** ** More on the command line *)

Lemma classify_flags (argv : list string) :
  forallb is_not_blocking_flag argv = true ->
  classify argv
  = inl (map (fun s => (s, optional (store_true_not_blocking,
                                     "--not-blocking", None))) argv).
Proof.
  induction argv as [|s argv IH]; [reflexivity|].
  cbn [forallb]. intros H. apply andb_prop in H as [F H].
  cbn [classify map].
  destruct (String.eqb_spec s "--") as [->|_]; [discriminate F|].
  rewrite (is_not_blocking_flag_effect _ F), (IH H). reflexivity.
Qed.

Lemma consume_flags (argv : list string) (ns : Namespace) :
  consume (map (fun s => (s, optional (store_true_not_blocking,
                                       "--not-blocking", None))) argv) ns []
  = parsed (match argv with [] => ns | _ => mkNamespace true end) [].
Proof.
  revert ns; induction argv as [|s argv IH]; intros ns; [reflexivity|].
  cbn [map consume consume_optional take_actions]. rewrite IH.
  now destruct argv.
Qed.

(** A list of [--not-blocking] flags parses. *)
Lemma flags_parse (argv : list string) :
  forallb is_not_blocking_flag argv = true ->
  _parse_known_args argv
  = parsed (mkNamespace (existsb is_not_blocking_flag argv)) [].
Proof.
  intros H. unfold _parse_known_args.
  rewrite (classify_flags _ H), consume_flags.
  destruct argv as [|s argv]; [reflexivity|].
  cbn [forallb existsb] in *. apply andb_prop in H as [-> _]. reflexivity.
Qed.

(** X1: the argument lists that the parser of the script accepts are the
    lists of [--not-blocking] flags, spelled out or abbreviated, of any
    length; the namespace says whether there is one. *)
Theorem accepted_argument_lists (argv : list string) (ns : Namespace) :
  _parse_known_args argv = parsed ns [] <->
  forallb is_not_blocking_flag argv = true /\
  ns = mkNamespace (existsb is_not_blocking_flag argv).
Proof.
  split.
  - intros H. apply _parse_known_args_parsed in H as [F E].
    split; [exact F|]. destruct ns as [b]. cbn in E. now subst b.
  - intros [F ->]. now apply flags_parse.
Qed.

(** ** Runs that complete *)

(** X2: when no library call raises, [plt.hist] returns three items and
    every argument is the flag, the run makes the whole sequence of calls,
    the five imports, the five set-up calls, 10000 [GetValue], [plt.hist] on
    their results, title, text, axis, grid and [plt.show], and the exit
    status is 0. *)
Theorem run_completes_when_libraries_return (w : oracle)
    (sys_argv : list string) :
  always_returns w ->
  hist_returns_triple w ->
  forallb is_not_blocking_flag (skipn 1 sys_argv) = true ->
  exists m1 m2 m3 m4 m5 s xs h v1 v2 v3 v4 v5,
    Z.of_nat (List.length xs) = 10000 /\
    python w sys_argv "__main__"
    = mkRun (imported m1 m2 m3 m4 m5 ++ drawn s xs
             ++ displayed (existsb is_not_blocking_flag (skipn 1 sys_argv))
                          h v1 v2 v3 v4 v5 xs)
            (inl tt) 0.
Proof.
  intros R T F.
  destruct (python_completes w sys_argv _ R T (flags_parse _ F))
    as (m1 & m2 & m3 & m4 & m5 & s & xs & h & v1 & v2 & v3 & v4 & v5
        & L & _ & E).
  exists m1, m2, m3, m4, m5, s, xs, h, v1, v2, v3, v4, v5. now split.
Qed.

Lemma run_completes_when_libraries_return_witness :
  exists m1 m2 m3 m4 m5 s xs h v1 v2 v3 v4 v5,
    Z.of_nat (List.length xs) = 10000 /\
    python counter ["sample-rng-plot.py"; "--not-b"] "__main__"
    = mkRun (imported m1 m2 m3 m4 m5 ++ drawn s xs
             ++ displayed (existsb is_not_blocking_flag
                                   (skipn 1 ["sample-rng-plot.py"; "--not-b"]))
                          h v1 v2 v3 v4 v5 xs)
            (inl tt) 0.
Proof.
  apply (run_completes_when_libraries_return
           counter ["sample-rng-plot.py"; "--not-b"]).
  - exact counter_always_returns.
  - exact counter_hist_returns_triple.
  - reflexivity.
Defined.

(** ** The module imported by another *)

(** X3: when the module does not run as [__main__], [main] is not called:
    the only calls are the imports, the command line is not read (every
    [sys.argv] gives the same run), and when no import raises the module
    ends normally, status 0. *)
Theorem imported_module_runs_no_main (w : oracle) (sys_argv : list string)
    (__name__ : string) :
  __name__ <> "__main__" ->
  let r := python w sys_argv __name__ in
  (forall c o, In (Ext c o) (trace r) -> is_import c = true) /\
  (forall f p, In (Write f p) (trace r) ->
     p <> usage prog /\ p <> help prog /\ forall err, p <> error_message prog err) /\
  (forall sys_argv', python w sys_argv' __name__ = r) /\
  ((forall c e, ~ In (Ext c (Raised e)) (trace r)) ->
   result r = inl tt /\ status r = 0).
Proof.
  intros N r. subst r.
  assert (Q : forall sys_argv',
             python w sys_argv' __name__ = python w sys_argv __name__).
  { intros sys_argv'. unfold python, script.
    destruct (String.eqb __name__ "__main__") eqn:E; [|reflexivity].
    apply String.eqb_eq in E. contradiction. }
  destruct (python_runs w sys_argv __name__) as (t & r & S & E).
  rewrite E in *. cbn [trace result status] in *.
  destruct S as [e0|m1 e0|m1 m2 e0|m1 m2 m3 e0|m1 m2 m3 m4 e0 I
                 |m1 m2 m3 m4 e0 I|m1 m2 m3 m4 m5 Nm|m1 m2 m3 m4 m5 t' r' Nm Mn];
    [| | | | | | |contradiction].
  all: split; [|split; [|split; [exact Q|]]].
  all: try (intros c o H; apply in_app_iff in H as [H|H];
            [unfold imported, ok, ko in H; in_cases H; injection H as <- _;
             reflexivity
            |apply in_last_words in H as [x H]; discriminate]).
  all: try (intros f p H; apply in_app_iff in H as [H|H];
            [unfold imported, ok, ko in H; in_cases H; discriminate|];
            unfold last_words in H;
            repeat match type of H with
                   | context [if ?b then _ else _] => destruct b
                   | context [match ?v with _ => _ end] => destruct v
                   end;
            in_cases H; injection H as <- <-;
            repeat split; try intros ?; discriminate).
  1-6: intros H; exfalso; eapply H; apply in_or_app; left; in_last.
  intros _. now split.
Qed.

Lemma imported_module_runs_no_main_witness :
  let r := python (stub VNone) ["other.py"; "--bogus"] "sample_rng_plot" in
  (forall c o, In (Ext c o) (trace r) -> is_import c = true) /\
  (forall f p, In (Write f p) (trace r) ->
     p <> usage prog /\ p <> help prog /\ forall err, p <> error_message prog err) /\
  (forall sys_argv', python (stub VNone) sys_argv' "sample_rng_plot" = r) /\
  ((forall c e, ~ In (Ext c (Raised e)) (trace r)) ->
   result r = inl tt /\ status r = 0).
Proof.
  apply (imported_module_runs_no_main
           (stub VNone) ["other.py"; "--bogus"] "sample_rng_plot").
  discriminate.
Defined.

(** ** Exceptions *)

(** The list without its last element, for a list written with [++] and
    [::]. *)
Ltac strip_last t :=
  lazymatch t with
  | ?a ++ ?b => let b' := strip_last b in constr:(a ++ b')
  | [?x] => constr:(@nil event)
  | ?x :: ?l => let l' := strip_last l in constr:(x :: l')
  end.

(** X4: [main] handles no exception.  A call that raises is the last call
    of the run: every call before it returned, nothing follows it but the
    interpreter's last words, and its exception is the result of the
    module, except for the guarded import of ns-3, whose
    [ModuleNotFoundError] the guard replaces by its [SystemExit]. *)
Theorem raising_call_ends_the_run (w : oracle) (sys_argv : list string)
    (__name__ : string) (c : call) (e : exn) :
  In (Ext c (Raised e)) (trace (python w sys_argv __name__)) ->
  let r := python w sys_argv __name__ in
  exists pre,
    trace r = pre ++ Ext c (Raised e) :: last_words (result r) /\
    (forall c' e', ~ In (Ext c' (Raised e')) pre) /\
    (result r = inr e \/
     (c = from_import "ns" "ns" /\
      isinstance e "ModuleNotFoundError" = true /\
      result r = inr (SystemExit (VStr diagnostic)))).
Proof.
  intros H r. subst r.
  destruct (python_runs w sys_argv __name__) as (t & r & S & E).
  rewrite E in *. cbn [trace result status] in *.
  apply in_app_iff in H as [H|H];
    [|apply in_last_words in H as [x H]; discriminate].
  destruct S as [e0|m1 e0|m1 m2 e0|m1 m2 m3 e0|m1 m2 m3 m4 e0 I
                 |m1 m2 m3 m4 e0 I|m1 m2 m3 m4 m5 Nm|m1 m2 m3 m4 m5 t' r' Nm Mn];
    [| | | | | | |destruct Mn as [err X|X|ns t' r' X B]; [| |destruct B]].
  all: unfold imported, drawn, configured, sampled, ok, ko in H; in_cases H;
    try discriminate; injection H as <- <-.
  all: match goal with
       | |- exists pre, ?t ++ ?lw = _ /\ _ =>
           let p := strip_last t in exists p
       end.
  all: split; [rewrite <- ?app_assoc; reflexivity|].
  all: split;
    [intros c' e' J; unfold imported, drawn, configured, sampled, ok, ko in J;
     in_cases J; discriminate|].
  all: first [left; reflexivity|right; repeat split; assumption].
Qed.

Lemma raising_call_ends_the_run_witness :
  let e := mkExn ["RuntimeError"; "Exception"; "BaseException"; "object"]
                 (VStr "no such attribute") in
  let c := rng_SetAttribute (VObject 1) "Mean" (VObject 2) in
  let r := python (raising (fun c => match c with
                                     | rng_SetAttribute _ _ _ => true
                                     | _ => false
                                     end) e)
                  ["sample-rng-plot.py"] "__main__" in
  exists pre,
    trace r = pre ++ Ext c (Raised e) :: last_words (result r) /\
    (forall c' e', ~ In (Ext c' (Raised e')) pre) /\
    (result r = inr e \/
     (c = from_import "ns" "ns" /\
      isinstance e "ModuleNotFoundError" = true /\
      result r = inr (SystemExit (VStr diagnostic)))).
Proof.
  apply (raising_call_ends_the_run
           (raising (fun c => match c with
                              | rng_SetAttribute _ _ _ => true
                              | _ => false
                              end)
                    (mkExn ["RuntimeError"; "Exception"; "BaseException";
                            "object"] (VStr "no such attribute")))
           ["sample-rng-plot.py"] "__main__"
           (rng_SetAttribute (VObject 1) "Mean" (VObject 2))).
  vm_compute. do 7 right. left. reflexivity.
Defined.

(** ** The result of [plt.hist] *)

(** With libraries that never raise and arguments that parse, the run
    reaches [plt.hist]. *)
Lemma reaches_hist_when_returning (w : oracle) (sys_argv : list string)
    (ns : Namespace) :
  always_returns w ->
  _parse_known_args (skipn 1 sys_argv) = parsed ns [] ->
  exists m1 m2 m3 m4 m5 s xs h post,
    Z.of_nat (List.length xs) = 10000 /\
    trace (python w sys_argv "__main__")
    = imported m1 m2 m3 m4 m5 ++ drawn s xs ++ ok (hist_call xs) h :: post.
Proof.
  intros R P.
  destruct (python_runs w sys_argv "__main__") as (t & r & S & E).
  pose proof (python_answered w sys_argv "__main__") as A.
  rewrite E in A |- *. cbn [trace] in A |- *.
  destruct S as [e0|m1 e0|m1 m2 e0|m1 m2 m3 e0|m1 m2 m3 m4 e0 I
                 |m1 m2 m3 m4 e0 I|m1 m2 m3 m4 m5 Nm|m1 m2 m3 m4 m5 t' r' Nm Mn].
  1-6: exfalso; eapply (never_raises w _ _ _ R A); apply in_or_app; left;
    in_last.
  - now destruct Nm.
  - destruct Mn as [err X|X|ns' t' r' X B];
      [rewrite P in X; destruct X|rewrite P in X; discriminate|].
    destruct B as [e|rng e|rng mean e|rng mean r1 e|rng mean r1 variance e
                   |s xs e L|s xs e L|s xs h e L U|s xs h e L U
                   |s xs h v1 e L U|s xs h v1 v2 e L U|s xs h v1 v2 v3 e L U
                   |s xs h v1 v2 v3 v4 e L U|s xs h v1 v2 v3 v4 v5 L U].
    1-7: exfalso; eapply (never_raises w _ _ _ R A); apply in_or_app; left;
      in_last.
    all: exists m1, m2, m3, m4, m5, s, xs, h; eexists;
      (split; [exact L|]); rewrite <- !app_assoc; cbn [app]; reflexivity.
Qed.

(** X5: the script unpacks three items from what [plt.hist] returns.  When
    [plt.hist] returns something else, the run stops there: it is the five
    imports, the setting up of the generator, the 10000 draws, the call of
    [plt.hist] and the traceback; [plt.title], [plt.text], [plt.axis],
    [plt.grid] and [plt.show] are not called.  The run ends with a
    [TypeError] when the value cannot be iterated and with a [ValueError]
    when it has not three items, and the exit status is 1. *)
Theorem hist_result_is_unpacked (w : oracle) (sys_argv : list string)
    (__name__ : string) (c : call) (h : value) :
  In (Ext c (Returned h)) (trace (python w sys_argv __name__)) ->
  is_hist c = true ->
  is_triple h = false ->
  let r := python w sys_argv __name__ in
  exists e m1 m2 m3 m4 m5 s xs,
    c = hist_call xs /\
    Z.of_nat (List.length xs) = 10000 /\
    trace r = imported m1 m2 m3 m4 m5 ++ drawn s xs
              ++ [Ext c (Returned h); Write stderr (traceback e)] /\
    calls is_figure (trace r) = [] /\
    calls is_show (trace r) = [] /\
    result r = inr e /\
    (items_of h = None -> isinstance e "TypeError" = true) /\
    (forall l, items_of h = Some l -> isinstance e "ValueError" = true) /\
    status r = 1.
Proof.
  intros H Hc Ht r. subst r.
  destruct (python_runs w sys_argv __name__) as (t & r & S & E).
  rewrite E in *. cbn [trace result status] in *.
  assert (Ic : is_import c = false) by (now destruct c).
  destruct (call_in_body _ _ _ _ _ _ S H Ic)
    as (m1 & m2 & m3 & m4 & m5 & ns & t' & _ & _ & B & -> & I).
  destruct B as [e|rng e|rng mean e|rng mean r1 e|rng mean r1 variance e
                 |s xs e L|s xs e L|s xs h0 e L U|s xs h0 e L U
                 |s xs h0 v1 e L U|s xs h0 v1 v2 e L U|s xs h0 v1 v2 v3 e L U
                 |s xs h0 v1 v2 v3 v4 e L U|s xs h0 v1 v2 v3 v4 v5 L U];
    unfold drawn, configured, sampled, ok, ko in I; in_cases I;
    try discriminate; injection I as <- <-; try discriminate Hc;
    try (rewrite U in Ht; discriminate Ht).
  assert (X : last_words (inr e) = [Write stderr (traceback e)]
              /\ exit_status (inr e) = 1
              /\ (items_of h0 = None -> isinstance e "TypeError" = true)
              /\ (forall l, items_of h0 = Some l ->
                            isinstance e "ValueError" = true)).
  { unfold unpack in U.
    destruct (items_of h0) as [[|a [|b [|d [|d' l]]]]|];
      try discriminate U; injection U as <-;
      (split; [reflexivity|]); (split; [reflexivity|]);
      (split; [intros Y; first [reflexivity|discriminate Y]
              |intros l0 Y; first [reflexivity|discriminate Y]]). }
  destruct X as (-> & -> & X1 & X2).
  exists e, m1, m2, m3, m4, m5, s, xs.
  split; [reflexivity|]. split; [exact L|].
  split; [now rewrite <- !app_assoc|].
  split; [|split; [|split; [reflexivity|split; [exact X1|split;
                                                  [exact X2|reflexivity]]]]].
  - unfold calls, drawn, configured, sampled. rewrite !filter_app.
    rewrite (filter_sampled_none is_figure (the_rng s) xs eq_refl).
    reflexivity.
  - unfold calls, drawn, configured, sampled. rewrite !filter_app.
    rewrite (filter_sampled_none is_show (the_rng s) xs eq_refl).
    reflexivity.
Qed.

Lemma hist_result_is_unpacked_witness :
  let r := python hist_returns_none ["sample-rng-plot.py"] "__main__" in
  exists e m1 m2 m3 m4 m5 s xs,
    In (Ext (hist_call xs) (Returned VNone)) (trace r) /\
    Z.of_nat (List.length xs) = 10000 /\
    trace r = imported m1 m2 m3 m4 m5 ++ drawn s xs
              ++ [Ext (hist_call xs) (Returned VNone);
                  Write stderr (traceback e)] /\
    calls is_figure (trace r) = [] /\
    calls is_show (trace r) = [] /\
    result r = inr e /\
    isinstance e "TypeError" = true /\
    status r = 1.
Proof.
  assert (R : always_returns hist_returns_none).
  { intros past c. destruct c; eexists; reflexivity. }
  destruct (reaches_hist_when_returning
              hist_returns_none ["sample-rng-plot.py"] (mkNamespace false)
              R eq_refl)
    as (m1 & m2 & m3 & m4 & m5 & s & xs & h & post & L & E).
  assert (I : In (Ext (hist_call xs) (Returned h))
                 (trace (python hist_returns_none ["sample-rng-plot.py"]
                                "__main__"))).
  { rewrite E. apply in_or_app. right. apply in_or_app. right. now left. }
  destruct (python_answered _ _ _ _ _ I) as [past X].
  injection X as <-.
  destruct (hist_result_is_unpacked
              hist_returns_none ["sample-rng-plot.py"] "__main__"
              (hist_call xs) VNone I eq_refl eq_refl)
    as (e & n1 & n2 & n3 & n4 & n5 & s' & xs' & Ec & L' & Et & Cf & Cs & Er
        & Ty & _ & St).
  injection Ec as <-.
  exists e, n1, n2, n3, n4, n5, s', xs.
  split; [exact I|]. split; [exact L'|]. split; [exact Et|].
  split; [exact Cf|]. split; [exact Cs|]. split; [exact Er|].
  split; [exact (Ty eq_refl)|exact St].
Defined.

(** ** How many calls *)

Ltac count_all :=
  unfold calls, drawn, configured, sampled, imported, displayed;
  repeat (progress
            (cbn [filter is_call ok ko app is_any is_GetValue is_create
                  the_rng the_mean mean_set the_variance variance_set
                  hist_call title_call text_call axis_call grid_call];
             rewrite ?filter_app, ?filter_last_words;
             try (rewrite filter_sampled_none by reflexivity);
             try (rewrite filter_sampled_all by reflexivity)));
  cbn [List.length]; rewrite ?length_app, ?length_map; cbn [List.length].

(** X6: a run makes at most 10016 calls into the libraries, at most 10000
    of them [GetValue] and at most one [CreateObject]; a run of [__main__]
    that ends normally makes exactly 10016. *)
Theorem number_of_calls (w : oracle) (sys_argv : list string)
    (__name__ : string) :
  let r := python w sys_argv __name__ in
  Z.of_nat (List.length (calls is_any (trace r))) <= 10016 /\
  Z.of_nat (List.length (calls is_GetValue (trace r))) <= 10000 /\
  Z.of_nat (List.length (calls is_create (trace r))) <= 1 /\
  (__name__ = "__main__" -> result r = inl tt ->
   Z.of_nat (List.length (calls is_any (trace r))) = 10016).
Proof.
  intros r. subst r.
  destruct (python_runs w sys_argv __name__) as (t & r & S & E).
  rewrite E. cbn [trace result status].
  destruct S as [e0|m1 e0|m1 m2 e0|m1 m2 m3 e0|m1 m2 m3 m4 e0 I
                 |m1 m2 m3 m4 e0 I|m1 m2 m3 m4 m5 Nm|m1 m2 m3 m4 m5 t' r' Nm Mn];
    [| | | | | | |destruct Mn as [err X|X|ns t' r' X B]; [| |destruct B]].
  all: split; [count_all; lia|split; [count_all; lia|split; [count_all; lia|]]].
  all: intros N R; try discriminate R; try contradiction; count_all; lia.
Qed.

(** ** What the flag changes *)

Lemma main_unfold (sys_argv : list string) :
  main sys_argv
  = (args <- parse_args (skipn 1 sys_argv) ;;
     body_of_main (not_blocking args) (range 10000)).
Proof. reflexivity. Qed.

Lemma fst_cons (A : Type) (ev : event) (X : list event * A) :
  fst (let (t, r) := X in (ev :: t, r)) = ev :: fst X.
Proof. now destruct X. Qed.

Lemma fst_app (A : Type) (l : list event) (X : list event * A) :
  fst (let (t, r) := X in (l ++ t, r)) = l ++ fst X.
Proof. now destruct X. Qed.

(** One call made by two computations that differ only later. *)
Ltac same_call v e :=
  rewrite !bind_ext;
  match goal with
  | |- context [match ?w ?p ?c with Returned _ => _ | Raised _ => _ end] =>
      destruct (w p c) as [v|e]; [|reflexivity]
  end;
  rewrite !fst_cons; cbn [filter is_call not_show is_show negb ok];
  try apply (f_equal (cons _)).

(** The body of [main] makes the same calls before [plt.show] whatever the
    flag. *)
Lemma body_same_before_show (nb1 nb2 : bool) (l : list Z) (w : oracle)
    (past : list event) :
  filter (is_call not_show) (fst (body_of_main nb1 l w past))
  = filter (is_call not_show) (fst (body_of_main nb2 l w past)).
Proof.
  unfold body_of_main.
  same_call rng e. same_call mean e. same_call r1 e. same_call variance e.
  same_call r2 e.
  rewrite !bind_eq.
  match goal with
  | |- context [list_comp _ l w ?p] =>
      destruct (list_comp_ext Z (rng_GetValue rng) l w p)
        as [(xs & -> & _)|(xs & e & -> & _)]; [|reflexivity]
  end.
  rewrite !fst_app, !filter_app. apply (f_equal (app _)).
  same_call h e.
  rewrite !bind_eq. unfold unpack3.
  destruct (unpack h) as [p|e]; [|reflexivity].
  cbn [rev_append app].
  assert (Z0 : forall (X : list event * (unit + exn)),
             fst (let (t2, r2) := X in (t2, r2)) = fst X)
    by (now intros []).
  rewrite !Z0.
  same_call v1 e. same_call v2 e. same_call v3 e. same_call v4 e.
  rewrite !bind_ext.
  repeat match goal with
         | |- context [match ?w ?p ?c with Returned _ => _ | Raised _ => _ end] =>
             destruct (w p c)
         end; reflexivity.
Qed.

Lemma script_same_before_show (sys_argv1 sys_argv2 : list string)
    (__name__ : string) (w : oracle) :
  forallb is_not_blocking_flag (skipn 1 sys_argv1) = true ->
  forallb is_not_blocking_flag (skipn 1 sys_argv2) = true ->
  filter (is_call not_show) (fst (script sys_argv1 __name__ w []))
  = filter (is_call not_show) (fst (script sys_argv2 __name__ w [])).
Proof.
  intros F1 F2. unfold script.
  same_call m1 e. same_call m2 e. same_call m3 e. same_call m4 e.
  rewrite !bind_eq. unfold try_except, ext.
  match goal with
  | |- context [match ?w ?p ?c with Returned _ => _ | Raised _ => _ end] =>
      destruct (w p c) as [m5|e]
  end.
  2:{ destruct (isinstance e "ModuleNotFoundError"); reflexivity. }
  cbn [rev_append app].
  destruct (String.eqb __name__ "__main__"); [|reflexivity].
  rewrite !fst_cons. cbn [filter is_call not_show is_show negb ok].
  apply (f_equal (cons _)).
  rewrite !main_unfold. unfold parse_args.
  rewrite (flags_parse _ F1), (flags_parse _ F2), !bind_ret.
  apply body_same_before_show.
Qed.

Lemma trace_python (w : oracle) (sys_argv : list string) (__name__ : string) :
  trace (python w sys_argv __name__)
  = fst (script sys_argv __name__ w [])
    ++ last_words (snd (script sys_argv __name__ w [])).
Proof.
  unfold python. now destruct (script sys_argv __name__ w []).
Qed.

(** X7: the flag changes nothing but the [block] argument of [plt.show].
    With the same libraries, two runs whose arguments are flags only make
    the same calls, with the same arguments and the same outcomes, up to
    [plt.show]. *)
Theorem flag_changes_only_the_display (w : oracle)
    (sys_argv1 sys_argv2 : list string) (__name__ : string) :
  forallb is_not_blocking_flag (skipn 1 sys_argv1) = true ->
  forallb is_not_blocking_flag (skipn 1 sys_argv2) = true ->
  calls not_show (trace (python w sys_argv1 __name__))
  = calls not_show (trace (python w sys_argv2 __name__)).
Proof.
  intros F1 F2. unfold calls.
  rewrite !trace_python, !filter_app, !filter_last_words.
  f_equal. now apply script_same_before_show.
Qed.

Lemma flag_changes_only_the_display_witness :
  calls not_show (trace (python counter ["sample-rng-plot.py"] "__main__"))
  = calls not_show
      (trace (python counter ["sample-rng-plot.py"; "--not-blocking"]
                     "__main__")).
Proof.
  apply (flag_changes_only_the_display counter); reflexivity.
Defined.

(** ** The generator object *)

(** X8: one generator.  [CreateObject] is called at most once, and every
    [SetAttribute] and every [GetValue] of the run is a method call on the
    object that this call returned. *)
Theorem generator_calls_on_created_object (w : oracle)
    (sys_argv : list string) (__name__ : string) (c : call) (o : outcome)
    (rng : value) :
  In (Ext c o) (trace (python w sys_argv __name__)) ->
  receiver c = Some rng ->
  let r := python w sys_argv __name__ in
  calls is_create (trace r)
  = [ok (ns_CreateObject "NormalRandomVariable") rng].
Proof.
  intros H Hr r. subst r.
  destruct (python_runs w sys_argv __name__) as (t & r & S & E).
  rewrite E in *. cbn [trace result status] in *.
  assert (Ic : is_import c = false) by (now destruct c).
  destruct (call_in_body _ _ _ _ _ _ S H Ic)
    as (m1 & m2 & m3 & m4 & m5 & ns & t' & _ & _ & B & -> & I).
  destruct B; unfold drawn, configured, sampled, ok, ko in I; in_cases I;
    injection I as <- <-; try discriminate Hr; injection Hr as <-;
    count_all; reflexivity.
Qed.

Lemma generator_calls_on_created_object_witness :
  let r := python (raising is_GetValue (ValueError "stream exhausted"))
                  ["sample-rng-plot.py"] "__main__" in
  calls is_create (trace r)
  = [ok (ns_CreateObject "NormalRandomVariable") (VObject 1)].
Proof.
  apply (generator_calls_on_created_object
           (raising is_GetValue (ValueError "stream exhausted"))
           ["sample-rng-plot.py"] "__main__"
           (rng_GetValue (VObject 1))
           (Raised (ValueError "stream exhausted"))).
  - vm_compute. do 10 right. left. reflexivity.
  - reflexivity.
Defined.
